(** * University complaint system: data model, handlers and their properties

    A shallow embedding of the complaint lifecycle and access-control engine
    ([app/models/models.py], [app/core/security.py], [app/crud/crud.py],
    [app/api/v1/routes.py], [app/services/notification_service.py]).

    The database session is an explicit value of type [Db]: one list of rows
    per table, in insertion order.  A handler takes the authenticated user
    and the session and returns the session after the request together with
    either its response or the [HTTPException] it raised. *)

From Stdlib Require Import ZArith QArith Ascii String.
From stdpp Require Import base option list gmap strings.

Open Scope string_scope.
Open Scope list_scope.
Open Scope Z_scope.

(** ** Enumerations ([app/models/models.py]) *)

Inductive ComplaintStatus :=
  SUBMITTED | UNDER_REVIEW | IN_PROGRESS | RESOLVED | CLOSED | ESCALATED.

Inductive ComplaintPriority := LOW | MEDIUM | HIGH | URGENT.

Inductive ComplaintCategory :=
  ACADEMIC | HOUSING | HARASSMENT | FINANCIAL | FACILITIES | DISCRIMINATION
| SAFETY | TECHNOLOGY | FOOD_SERVICES | TRANSPORTATION | OTHER.

Inductive UserRole := STUDENT | ADMIN | STAFF | SUPER_ADMIN.

#[global] Instance ComplaintStatus_eq_dec : EqDecision ComplaintStatus.
Proof. solve_decision. Defined.
#[global] Instance ComplaintPriority_eq_dec : EqDecision ComplaintPriority.
Proof. solve_decision. Defined.
#[global] Instance ComplaintCategory_eq_dec : EqDecision ComplaintCategory.
Proof. solve_decision. Defined.
#[global] Instance UserRole_eq_dec : EqDecision UserRole.
Proof. solve_decision. Defined.

(** The [.value] of each member, and the members in declaration order (the
    order in which [for status in ComplaintStatus] visits them). *)

Definition status_value (s : ComplaintStatus) : string :=
  match s with
  | SUBMITTED => "submitted" | UNDER_REVIEW => "under_review"
  | IN_PROGRESS => "in_progress" | RESOLVED => "resolved"
  | CLOSED => "closed" | ESCALATED => "escalated"
  end.

Definition priority_value (p : ComplaintPriority) : string :=
  match p with
  | LOW => "low" | MEDIUM => "medium" | HIGH => "high" | URGENT => "urgent"
  end.

Definition category_value (c : ComplaintCategory) : string :=
  match c with
  | ACADEMIC => "academic" | HOUSING => "housing" | HARASSMENT => "harassment"
  | FINANCIAL => "financial" | FACILITIES => "facilities"
  | DISCRIMINATION => "discrimination" | SAFETY => "safety"
  | TECHNOLOGY => "technology" | FOOD_SERVICES => "food_services"
  | TRANSPORTATION => "transportation" | OTHER => "other"
  end.

Definition all_ComplaintStatus : list ComplaintStatus :=
  [SUBMITTED; UNDER_REVIEW; IN_PROGRESS; RESOLVED; CLOSED; ESCALATED].

Definition all_ComplaintCategory : list ComplaintCategory :=
  [ACADEMIC; HOUSING; HARASSMENT; FINANCIAL; FACILITIES; DISCRIMINATION;
   SAFETY; TECHNOLOGY; FOOD_SERVICES; TRANSPORTATION; OTHER].

(** ** Rows ([app/models/models.py])

    Each table row is a record carrying the columns the handlers below read
    or write.  A [DateTime] is the number of seconds since the epoch, a
    nullable column is an [option].  Presentation columns (phone, avatar,
    location, witnesses, feedback, ...) are left out. *)

Module User.
Record t := mk {
  id : Z;
  email : string;
  username : string;
  full_name : string;
  role : UserRole;
  department_id : option Z;
  university_id : Z;
  is_active : bool
}.
End User.

Module Complaint.
(** [assigned_to] is the relationship through the [complaint_assignments]
    association table; it is kept as the list of the assigned users' ids
    (the session holds one object per primary key, so membership of a
    user object is membership of its id). *)
Record t := mk {
  id : Z;
  title : string;
  description : string;
  category : ComplaintCategory;
  priority : ComplaintPriority;
  status : ComplaintStatus;
  complainant_id : Z;
  university_id : Z;
  department_id : option Z;
  resolution : option string;
  resolved_at : option Z;
  resolved_by_id : option Z;
  created_at : option Z;
  due_date : option Z;
  satisfaction_rating : option Z;
  assigned_to : list Z
}.
End Complaint.

Module Message.
Record t := mk {
  id : Z;
  content : string;
  complaint_id : Z;
  sender_id : Z;
  is_internal : bool
}.
End Message.

Module Activity.
Record t := mk {
  id : Z;
  action : string;
  description : string;
  complaint_id : Z;
  user_id : Z;
  old_value : option string;
  new_value : option string
}.
End Activity.

Module Notification.
Record t := mk {
  id : Z;
  title : string;
  message : string;
  user_id : Z;
  complaint_id : option Z;
  is_read : bool;
  notification_type : string
}.
End Notification.

Module Attachment.
Record t := mk {
  id : Z;
  original_filename : string;
  file_path : string;
  complaint_id : Z;
  uploaded_by_id : option Z
}.
End Attachment.

(** ** The session

    The [universities] and [departments] tables are kept as their primary
    keys: the handlers below only test that a referenced row exists. *)

Record Db := mkDb {
  universities : list Z;
  departments : list Z;
  users : list User.t;
  complaints : list Complaint.t;
  messages : list Message.t;
  activities : list Activity.t;
  notifications : list Notification.t;
  attachments : list Attachment.t
}.

Definition empty_db : Db := mkDb [] [] [] [] [] [] [] [].

Definition set_users (v : list User.t) (db : Db) : Db :=
  mkDb (universities db) (departments db) v (complaints db) (messages db)
       (activities db) (notifications db) (attachments db).

Definition set_complaints (v : list Complaint.t) (db : Db) : Db :=
  mkDb (universities db) (departments db) (users db) v (messages db)
       (activities db) (notifications db) (attachments db).

Definition set_messages (v : list Message.t) (db : Db) : Db :=
  mkDb (universities db) (departments db) (users db) (complaints db) v
       (activities db) (notifications db) (attachments db).

Definition set_activities (v : list Activity.t) (db : Db) : Db :=
  mkDb (universities db) (departments db) (users db) (complaints db) (messages db)
       v (notifications db) (attachments db).

Definition set_notifications (v : list Notification.t) (db : Db) : Db :=
  mkDb (universities db) (departments db) (users db) (complaints db) (messages db)
       (activities db) v (attachments db).

Definition set_attachments (v : list Attachment.t) (db : Db) : Db :=
  mkDb (universities db) (departments db) (users db) (complaints db) (messages db)
       (activities db) (notifications db) v.

(** A row object fetched with [.first()] and then mutated: on commit the
    first row that satisfies the query is the one that changes. *)
Fixpoint update_first {A : Type} (p : A → bool) (f : A → A) (rows : list A) : list A :=
  match rows with
  | [] => []
  | row :: rows' => if p row then f row :: rows' else row :: update_first p f rows'
  end.

(** An autoincrement primary key: one more than the largest key in use. *)
Definition next_id (ids : list Z) : Z := 1 + foldr Z.max 0 ids.

(** [query.filter(model.id == id).first()] *)
Definition get_user (db : Db) (id : Z) : option User.t :=
  find (λ u, bool_decide (User.id u = id)) (users db).

Definition get_complaint (db : Db) (id : Z) : option Complaint.t :=
  find (λ c, bool_decide (Complaint.id c = id)) (complaints db).

(** ** Constraints checked on commit

    A commit that violates a constraint raises, and nothing of the
    transaction is stored.  Two constraints are checked by the operations
    below: the foreign key of a complaint's [department_id] and the
    [NOT NULL] of an attachment's [uploaded_by_id].  The others that a
    request can violate (a user's department and unique e-mail on an update,
    the complaint named by a message body, the users named by an assignment)
    are hypotheses of the properties that depend on them, and texts are taken
    to fit their columns. *)

(** [complaints.department_id] references [departments.id]. *)
Definition department_exists (db : Db) (department_id : option Z) : bool :=
  match department_id with
  | Some d => bool_decide (d ∈ departments db)
  | None => true
  end.

(** ** Responses *)

Inductive Result (A : Type) :=
| Ok (a : A)
| HTTPException (status_code : Z) (detail : string).
Arguments Ok {A} a.
Arguments HTTPException {A} status_code detail.

Definition HTTP_400_BAD_REQUEST : Z := 400.
Definition HTTP_401_UNAUTHORIZED : Z := 401.
Definition HTTP_403_FORBIDDEN : Z := 403.
Definition HTTP_404_NOT_FOUND : Z := 404.
Definition HTTP_500_INTERNAL_SERVER_ERROR : Z := 500.

(** What [general_exception_handler] of [main.py] answers when a handler
    lets an exception through. *)
Definition unhandled_exception {A : Type} : Result A :=
  HTTPException HTTP_500_INTERNAL_SERVER_ERROR "Internal server error".

(** ** Authorization ([app/core/security.py]) *)

(** [get_current_user] after the token has been decoded to [token_user_id],
    followed by [get_current_active_user].  The [last_login] stamp it
    leaves on the user row is not a column of [User.t]. *)
Definition get_current_active_user (db : Db) (token_user_id : Z) : Result User.t :=
  match get_user db token_user_id with
  | None => HTTPException HTTP_401_UNAUTHORIZED "Could not validate credentials"
  | Some user =>
      if negb (User.is_active user)
      then HTTPException HTTP_400_BAD_REQUEST "Inactive user"
      else Ok user
  end.

Definition get_admin_user (current_user : User.t) : Result User.t :=
  if bool_decide (User.role current_user ∉ [ADMIN; STAFF; SUPER_ADMIN])
  then HTTPException HTTP_403_FORBIDDEN "Admin privileges required"
  else Ok current_user.

Definition can_access_complaint (current_user : User.t) (complaint : Complaint.t) : bool :=
  if bool_decide (User.role current_user = SUPER_ADMIN) then true
  else if bool_decide (User.university_id current_user ≠ Complaint.university_id complaint) then false
  else if bool_decide (Complaint.complainant_id complaint = User.id current_user) then true
  else if bool_decide (User.id current_user ∈ Complaint.assigned_to complaint) then true
  else if bool_decide (User.role current_user ∈ [ADMIN; STAFF]) then true
  else false.


(** ** Python truthiness of the optional arguments *)

Definition truthy_str (o : option string) : bool :=
  match o with Some s => negb (bool_decide (s = "")) | None => false end.

Definition truthy_int (o : option Z) : bool :=
  match o with Some n => negb (bool_decide (n = 0)) | None => false end.

(** ** Request bodies ([app/schemas/schemas.py]) *)

Module UserCreate.
Record t := mk {
  email : string;
  username : string;
  full_name : string;
  role : UserRole;
  university_id : Z;
  department_id : option Z
}.
End UserCreate.

(** In an update body a field is [None] when the request does not carry it
    ([exclude_unset] drops it), and [Some v] when it carries the value [v]. *)
Module UserUpdate.
Record t := mk {
  email : option string;
  full_name : option string;
  department_id : option Z
}.
End UserUpdate.

Module ComplaintCreate.
Record t := mk {
  title : string;
  description : string;
  category : ComplaintCategory;
  priority : ComplaintPriority;
  department_id : option Z;
  university_id : Z
}.
End ComplaintCreate.

(** [assigned_to_ids] is accepted in the body but is no mapped attribute of
    the complaint: setting it changes no row. *)
Module ComplaintUpdate.
Record t := mk {
  title : option string;
  description : option string;
  category : option ComplaintCategory;
  priority : option ComplaintPriority;
  status : option ComplaintStatus;
  department_id : option Z;
  resolution : option string;
  assigned_to_ids : option (list Z)
}.
End ComplaintUpdate.

Module ComplaintStatusUpdate.
Record t := mk {
  status : ComplaintStatus;
  resolution : option string
}.
End ComplaintStatusUpdate.

Module MessageCreate.
Record t := mk {
  content : string;
  is_internal : bool;
  complaint_id : Z
}.
End MessageCreate.

Module UploadFile.
Record t := mk {
  filename : string;
  size : Z
}.
End UploadFile.

(** ** CRUD operations ([app/crud/crud.py]) *)

Definition len {A : Type} (l : list A) : Z := Z.of_nat (length l).

Module CRUDUser.

Definition get_by_email (db : Db) (email : string) : option User.t :=
  find (λ u, bool_decide (User.email u = email)) (users db).

Definition get_by_username (db : Db) (username : string) : option User.t :=
  find (λ u, bool_decide (User.username u = username)) (users db).

Definition get_multi (db : Db) (skip limit : nat) : list User.t :=
  take limit (drop skip (users db)).

Definition create (db : Db) (obj_in : UserCreate.t) : Db * User.t :=
  let db_obj :=
    User.mk (next_id (User.id <$> users db))
            (UserCreate.email obj_in) (UserCreate.username obj_in)
            (UserCreate.full_name obj_in) (UserCreate.role obj_in)
            (UserCreate.department_id obj_in) (UserCreate.university_id obj_in)
            true in
  (set_users (users db ++ [db_obj]) db, db_obj).

(** [CRUDBase.update]: every field the body carries is set on the row. *)
Definition apply_update (obj_in : UserUpdate.t) (db_obj : User.t) : User.t :=
  User.mk (User.id db_obj)
          (default (User.email db_obj) (UserUpdate.email obj_in))
          (User.username db_obj)
          (default (User.full_name db_obj) (UserUpdate.full_name obj_in))
          (User.role db_obj)
          (match UserUpdate.department_id obj_in with
           | Some d => Some d
           | None => User.department_id db_obj
           end)
          (User.university_id db_obj)
          (User.is_active db_obj).

Definition update (db : Db) (db_obj : User.t) (obj_in : UserUpdate.t) : Db * User.t :=
  (set_users (update_first (λ u, bool_decide (User.id u = User.id db_obj))
                           (apply_update obj_in) (users db)) db,
   apply_update obj_in db_obj).

Definition get_admins_by_university (db : Db) (university_id : Z) : list User.t :=
  filter (λ u, User.university_id u = university_id ∧ User.role u ∈ [ADMIN; STAFF])
         (users db).

(** [skip] and [limit] are taken non-negative. *)
Definition get_by_university (db : Db) (university_id : Z) (skip limit : nat)
  : list User.t :=
  take limit (drop skip (filter (λ u, User.university_id u = university_id) (users db))).

End CRUDUser.

(** Attribute assignments on a complaint row. *)

Definition set_status (v : ComplaintStatus) (c : Complaint.t) : Complaint.t :=
  Complaint.mk (Complaint.id c) (Complaint.title c) (Complaint.description c)
    (Complaint.category c) (Complaint.priority c) v
    (Complaint.complainant_id c) (Complaint.university_id c) (Complaint.department_id c)
    (Complaint.resolution c) (Complaint.resolved_at c) (Complaint.resolved_by_id c)
    (Complaint.created_at c) (Complaint.due_date c) (Complaint.satisfaction_rating c)
    (Complaint.assigned_to c).

Definition set_resolved_at (v : option Z) (c : Complaint.t) : Complaint.t :=
  Complaint.mk (Complaint.id c) (Complaint.title c) (Complaint.description c)
    (Complaint.category c) (Complaint.priority c) (Complaint.status c)
    (Complaint.complainant_id c) (Complaint.university_id c) (Complaint.department_id c)
    (Complaint.resolution c) v (Complaint.resolved_by_id c)
    (Complaint.created_at c) (Complaint.due_date c) (Complaint.satisfaction_rating c)
    (Complaint.assigned_to c).

Definition set_resolved_by_id (v : option Z) (c : Complaint.t) : Complaint.t :=
  Complaint.mk (Complaint.id c) (Complaint.title c) (Complaint.description c)
    (Complaint.category c) (Complaint.priority c) (Complaint.status c)
    (Complaint.complainant_id c) (Complaint.university_id c) (Complaint.department_id c)
    (Complaint.resolution c) (Complaint.resolved_at c) v
    (Complaint.created_at c) (Complaint.due_date c) (Complaint.satisfaction_rating c)
    (Complaint.assigned_to c).

Definition set_resolution (v : option string) (c : Complaint.t) : Complaint.t :=
  Complaint.mk (Complaint.id c) (Complaint.title c) (Complaint.description c)
    (Complaint.category c) (Complaint.priority c) (Complaint.status c)
    (Complaint.complainant_id c) (Complaint.university_id c) (Complaint.department_id c)
    v (Complaint.resolved_at c) (Complaint.resolved_by_id c)
    (Complaint.created_at c) (Complaint.due_date c) (Complaint.satisfaction_rating c)
    (Complaint.assigned_to c).

Definition set_assigned_to (v : list Z) (c : Complaint.t) : Complaint.t :=
  Complaint.mk (Complaint.id c) (Complaint.title c) (Complaint.description c)
    (Complaint.category c) (Complaint.priority c) (Complaint.status c)
    (Complaint.complainant_id c) (Complaint.university_id c) (Complaint.department_id c)
    (Complaint.resolution c) (Complaint.resolved_at c) (Complaint.resolved_by_id c)
    (Complaint.created_at c) (Complaint.due_date c) (Complaint.satisfaction_rating c)
    v.

(** The dashboard dictionary returned by [get_statistics].  The two
    averages are Python floats; they are computed here as exact rationals. *)
Record Statistics := mkStatistics {
  total_complaints : Z;
  pending_complaints : Z;
  resolved_complaints : Z;
  overdue_complaints : Z;
  average_resolution_time : Q;
  satisfaction_score : Q;
  complaints_by_category : gmap string Z;
  complaints_by_status : gmap string Z
}.

Definition is_overdue (now : Z) (c : Complaint.t) : bool :=
  match Complaint.due_date c with
  | Some due => bool_decide (due < now)
                && bool_decide (Complaint.status c ∉ [RESOLVED; CLOSED])
  | None => false
  end.

Definition has_resolution_time (c : Complaint.t) : bool :=
  match Complaint.resolved_at c, Complaint.created_at c with
  | Some _, Some _ => true
  | _, _ => false
  end.

(** [(c.resolved_at - c.created_at).total_seconds() / 3600] *)
Definition resolution_hours (c : Complaint.t) : Q :=
  match Complaint.resolved_at c, Complaint.created_at c with
  | Some r, Some t => (inject_Z (r - t) / inject_Z 3600)%Q
  | _, _ => 0%Q
  end.

(** [Complaint.created_at >= date_from] and [Complaint.created_at <= date_to]
    in a query: a row without [created_at] satisfies neither. *)
Definition created_from (date_from : Z) (c : Complaint.t) : bool :=
  match Complaint.created_at c with
  | Some t => bool_decide (date_from ≤ t)
  | None => false
  end.

Definition created_until (date_to : Z) (c : Complaint.t) : bool :=
  match Complaint.created_at c with
  | Some t => bool_decide (t ≤ date_to)
  | None => false
  end.

Definition sum_Q (l : list Q) : Q := foldl Qplus 0%Q l.

(** [Complaint.due_date < now] in a query. *)
Definition due_before (now : Z) (c : Complaint.t) : bool :=
  match Complaint.due_date c with
  | Some due => bool_decide (due < now)
  | None => false
  end.

Module CRUDComplaint.

(** The row is built from the body and [complainant_id]: [status] takes
    the column default, [created_at] the server clock.  [None] when the
    commit raises: the body names a department that does not exist. *)
Definition create (now : Z) (db : Db) (obj_in : ComplaintCreate.t) (complainant_id : Z)
  : option (Db * Complaint.t) :=
  let db_obj :=
    Complaint.mk (next_id (Complaint.id <$> complaints db))
      (ComplaintCreate.title obj_in) (ComplaintCreate.description obj_in)
      (ComplaintCreate.category obj_in) (ComplaintCreate.priority obj_in)
      SUBMITTED complainant_id (ComplaintCreate.university_id obj_in)
      (ComplaintCreate.department_id obj_in)
      None None None (Some now) None None [] in
  if department_exists db (Complaint.department_id db_obj)
  then Some (set_complaints (complaints db ++ [db_obj]) db, db_obj)
  else None.

Definition get (db : Db) (id : Z) : option Complaint.t := get_complaint db id.

(** [CRUDBase.update] on a complaint row. *)
Definition apply_update (obj_in : ComplaintUpdate.t) (db_obj : Complaint.t) : Complaint.t :=
  Complaint.mk (Complaint.id db_obj)
    (default (Complaint.title db_obj) (ComplaintUpdate.title obj_in))
    (default (Complaint.description db_obj) (ComplaintUpdate.description obj_in))
    (default (Complaint.category db_obj) (ComplaintUpdate.category obj_in))
    (default (Complaint.priority db_obj) (ComplaintUpdate.priority obj_in))
    (default (Complaint.status db_obj) (ComplaintUpdate.status obj_in))
    (Complaint.complainant_id db_obj)
    (Complaint.university_id db_obj)
    (match ComplaintUpdate.department_id obj_in with
     | Some d => Some d
     | None => Complaint.department_id db_obj
     end)
    (match ComplaintUpdate.resolution obj_in with
     | Some r => Some r
     | None => Complaint.resolution db_obj
     end)
    (Complaint.resolved_at db_obj) (Complaint.resolved_by_id db_obj)
    (Complaint.created_at db_obj) (Complaint.due_date db_obj)
    (Complaint.satisfaction_rating db_obj) (Complaint.assigned_to db_obj).

(** [None] when the commit raises: the body names a department that does
    not exist. *)
Definition update (db : Db) (db_obj : Complaint.t) (obj_in : ComplaintUpdate.t)
  : option (Db * Complaint.t) :=
  if department_exists db (ComplaintUpdate.department_id obj_in)
  then Some (set_complaints
               (update_first (λ c, bool_decide (Complaint.id c = Complaint.id db_obj))
                             (apply_update obj_in) (complaints db)) db,
             apply_update obj_in db_obj)
  else None.

Definition assign_users (db : Db) (complaint_id : Z) (user_ids : list Z)
  : Db * option Complaint.t :=
  match get_complaint db complaint_id with
  | Some complaint =>
      let users := filter (λ u, User.id u ∈ user_ids) (users db) in
      let assign := set_assigned_to (User.id <$> users) in
      (set_complaints (update_first (λ c, bool_decide (Complaint.id c = complaint_id))
                                    assign (complaints db)) db,
       Some (assign complaint))
  | None => (db, None)
  end.

Definition apply_status (now : Z) (status : ComplaintStatus) (resolution : option string)
    (resolved_by_id : option Z) (complaint : Complaint.t) : Complaint.t :=
  let complaint := set_status status complaint in
  if bool_decide (status = RESOLVED) then
    let complaint := set_resolved_at (Some now) complaint in
    let complaint := set_resolved_by_id resolved_by_id complaint in
    if truthy_str resolution then set_resolution resolution complaint else complaint
  else complaint.

(** Returns the pair [(complaint, old_status)], or [None] for the pair
    [(None, None)]. *)
Definition update_status (now : Z) (db : Db) (complaint_id : Z) (status : ComplaintStatus)
    (resolution : option string) (resolved_by_id : option Z)
  : Db * option (Complaint.t * ComplaintStatus) :=
  match get_complaint db complaint_id with
  | Some complaint =>
      let old_status := Complaint.status complaint in
      (set_complaints (update_first (λ c, bool_decide (Complaint.id c = complaint_id))
                         (apply_status now status resolution resolved_by_id)
                         (complaints db)) db,
       Some (apply_status now status resolution resolved_by_id complaint, old_status))
  | None => (db, None)
  end.

(** The rows selected by the query of [get_statistics]. *)
Definition statistics_query (db : Db) (university_id : Z) (department_id : option Z)
    (date_from date_to : option Z) : list Complaint.t :=
  let query := filter (λ c, Complaint.university_id c = university_id) (complaints db) in
  let query :=
    if truthy_int department_id
    then filter (λ c, Complaint.department_id c = department_id) query
    else query in
  let query :=
    match date_from with
    | Some d => filter (λ c, created_from d c) query
    | None => query
    end in
  match date_to with
  | Some d => filter (λ c, created_until d c) query
  | None => query
  end.

Definition statistics_of (now : Z) (complaints : list Complaint.t) : Statistics :=
  let total_complaints := len complaints in
  let resolved_complaints :=
    len (filter (λ c, Complaint.status c = RESOLVED) complaints) in
  let pending_complaints :=
    len (filter (λ c, Complaint.status c ∈ [SUBMITTED; UNDER_REVIEW; IN_PROGRESS])
                complaints) in
  let overdue_complaints := len (filter (λ c, is_overdue now c) complaints) in
  let resolved_with_time := filter (λ c, has_resolution_time c) complaints in
  let average_resolution_time :=
    match resolved_with_time with
    | [] => 0%Q
    | _ => (sum_Q (resolution_hours <$> resolved_with_time)
            / inject_Z (len resolved_with_time))%Q
    end in
  let rated_complaints :=
    filter (λ c, truthy_int (Complaint.satisfaction_rating c)) complaints in
  let satisfaction_score :=
    match rated_complaints with
    | [] => 0%Q
    | _ => (sum_Q ((λ c, inject_Z (default 0%Z (Complaint.satisfaction_rating c)))
                   <$> rated_complaints)
            / inject_Z (len rated_complaints))%Q
    end in
  let complaints_by_category :=
    foldl (λ d category,
             <[category_value category :=
                 len (filter (λ c, Complaint.category c = category) complaints)]> d)
          ∅ all_ComplaintCategory in
  let complaints_by_status :=
    foldl (λ d status,
             <[status_value status :=
                 len (filter (λ c, Complaint.status c = status) complaints)]> d)
          ∅ all_ComplaintStatus in
  mkStatistics total_complaints pending_complaints resolved_complaints
    overdue_complaints average_resolution_time satisfaction_score
    complaints_by_category complaints_by_status.

Definition get_statistics (now : Z) (db : Db) (university_id : Z)
    (department_id : option Z) (date_from date_to : option Z) : Statistics :=
  statistics_of now (statistics_query db university_id department_id date_from date_to).


End CRUDComplaint.

Module CRUDMessage.

Definition create (db : Db) (obj_in : MessageCreate.t) (sender_id : Z) : Db * Message.t :=
  let db_obj :=
    Message.mk (next_id (Message.id <$> messages db))
      (MessageCreate.content obj_in) (MessageCreate.complaint_id obj_in) sender_id
      (MessageCreate.is_internal obj_in) in
  (set_messages (messages db ++ [db_obj]) db, db_obj).

(** Rows are kept in insertion order, which is their [created_at] order. *)
Definition get_by_complaint (db : Db) (complaint_id : Z) (include_internal : bool)
  : list Message.t :=
  let query := filter (λ m, Message.complaint_id m = complaint_id) (messages db) in
  if negb include_internal
  then filter (λ m, Message.is_internal m = false) query
  else query.

End CRUDMessage.

Module CRUDActivity.

Definition log_activity (db : Db) (complaint_id user_id : Z) (action description : string)
    (old_value new_value : option string) : Db * Activity.t :=
  let activity :=
    Activity.mk (next_id (Activity.id <$> activities db))
      action description complaint_id user_id old_value new_value in
  (set_activities (activities db ++ [activity]) db, activity).

End CRUDActivity.

Module CRUDAttachment.

(** [CRUDBase.create] on an [AttachmentCreate], which carries no
    [uploaded_by_id]: the row is inserted without it.  [None] when the commit
    raises: the column is [NOT NULL]. *)
Definition create (db : Db) (original_filename file_path : string) (complaint_id : Z)
  : option (Db * Attachment.t) :=
  let db_obj :=
    Attachment.mk (next_id (Attachment.id <$> attachments db))
      original_filename file_path complaint_id None in
  if bool_decide (is_Some (Attachment.uploaded_by_id db_obj))
  then Some (set_attachments (attachments db ++ [db_obj]) db, db_obj)
  else None.

Definition set_uploaded_by_id (v : option Z) (a : Attachment.t) : Attachment.t :=
  Attachment.mk (Attachment.id a) (Attachment.original_filename a)
    (Attachment.file_path a) (Attachment.complaint_id a) v.

End CRUDAttachment.

Module CRUDNotification.

Definition create (db : Db) (title message : string) (user_id : Z)
    (complaint_id : option Z) (notification_type : string) : Db * Notification.t :=
  let db_obj :=
    Notification.mk (next_id (Notification.id <$> notifications db))
      title message user_id complaint_id false notification_type in
  (set_notifications (notifications db ++ [db_obj]) db, db_obj).

Definition set_is_read (v : bool) (n : Notification.t) : Notification.t :=
  Notification.mk (Notification.id n) (Notification.title n) (Notification.message n)
    (Notification.user_id n) (Notification.complaint_id n) v
    (Notification.notification_type n).

Definition owned (notification_id user_id : Z) (n : Notification.t) : bool :=
  bool_decide (Notification.id n = notification_id)
  && bool_decide (Notification.user_id n = user_id).

Definition mark_as_read (db : Db) (notification_id user_id : Z)
  : Db * option Notification.t :=
  match find (owned notification_id user_id) (notifications db) with
  | Some notification =>
      (set_notifications (update_first (owned notification_id user_id)
                                       (set_is_read true) (notifications db)) db,
       Some (set_is_read true notification))
  | None => (db, None)
  end.

Definition mark_all_as_read (db : Db) (user_id : Z) : Db * bool :=
  (set_notifications
     ((λ n, if bool_decide (Notification.user_id n = user_id)
            then set_is_read true n else n) <$> notifications db) db,
   true).

(** Newest first: rows are kept in insertion order, which is their
    [created_at] order. *)
Definition get_by_user (db : Db) (user_id : Z) (unread_only : bool)
  : list Notification.t :=
  let query := filter (λ n, Notification.user_id n = user_id) (notifications db) in
  let query :=
    if unread_only then filter (λ n, Notification.is_read n = false) query else query in
  reverse query.

End CRUDNotification.

(** Whom a notification is for, about which complaint, and of which type. *)
Definition notification_key (n : Notification.t) : Z * option Z * string :=
  (Notification.user_id n, Notification.complaint_id n,
   Notification.notification_type n).

(** ** Notification service ([app/services/notification_service.py])

    The e-mail hand-off after the row is stored changes no table and is left
    out. *)

Module NotificationService.

Definition create_notification (db : Db) (user_id : Z) (title message : string)
    (complaint_id : option Z) (notification_type : string) : Db * Notification.t :=
  CRUDNotification.create db title message user_id complaint_id notification_type.

Definition notify_complaint_status_change (db : Db) (complaint : Complaint.t)
    (old_status new_status : ComplaintStatus) (changed_by : User.t) : Db :=
  let db :=
    if bool_decide (Complaint.complainant_id complaint ≠ User.id changed_by)
    then (create_notification db (Complaint.complainant_id complaint)
            "Complaint Status Updated"
            ("Your complaint '" +:+ Complaint.title complaint
             +:+ "' status has been changed from " +:+ status_value old_status
             +:+ " to " +:+ status_value new_status
             +:+ " by " +:+ User.full_name changed_by +:+ ".")
            (Some (Complaint.id complaint)) "system").1
    else db in
  foldl (λ db assigned_user_id,
           if bool_decide (assigned_user_id ≠ User.id changed_by)
           then (create_notification db assigned_user_id
                   "Assigned Complaint Status Updated"
                   ("Complaint '" +:+ Complaint.title complaint
                    +:+ "' that you're assigned to has been updated to "
                    +:+ status_value new_status +:+ ".")
                   (Some (Complaint.id complaint)) "system").1
           else db)
        db (Complaint.assigned_to complaint).

(** The set of recipients is built by successive [add]s; its iteration order
    is not specified, the order of insertion is taken here. *)
Definition notify_new_message (db : Db) (complaint : Complaint.t) (sender : User.t)
    (message_content : string) : Db :=
  let add := λ (notify_users : list Z) (user_id : Z),
    if bool_decide (user_id ∈ notify_users) then notify_users
    else notify_users ++ [user_id] in
  let notify_users := add [] (Complaint.complainant_id complaint) in
  let notify_users := foldl add notify_users (Complaint.assigned_to complaint) in
  let notify_users := filter (λ user_id, user_id ≠ User.id sender) notify_users in
  foldl (λ db user_id,
           (create_notification db user_id "New Message on Complaint"
              (User.full_name sender +:+ " added a message to complaint '"
               +:+ Complaint.title complaint +:+ "'.")
              (Some (Complaint.id complaint)) "system").1)
        db notify_users.

Definition notify_overdue_complaints (now : Z) (db : Db) : Db :=
  let overdue_complaints :=
    filter (λ c, due_before now c ∧ Complaint.status c ∉ [RESOLVED; CLOSED])
           (complaints db) in
  foldl (λ db complaint,
           let db :=
             foldl (λ db assigned_user_id,
                      (create_notification db assigned_user_id
                         "Overdue Complaint Alert"
                         ("Complaint '" +:+ Complaint.title complaint
                          +:+ "' is overdue and requires attention.")
                         (Some (Complaint.id complaint)) "alert").1)
                   db (Complaint.assigned_to complaint) in
           if bool_decide (Complaint.assigned_to complaint = []) then
             let admins :=
               CRUDUser.get_admins_by_university db (Complaint.university_id complaint) in
             foldl (λ db admin,
                      (create_notification db (User.id admin)
                         "Unassigned Overdue Complaint"
                         ("Unassigned complaint '" +:+ Complaint.title complaint
                          +:+ "' is overdue and needs assignment.")
                         (Some (Complaint.id complaint)) "alert").1)
                   db admins
           else db)
        db overdue_complaints.

End NotificationService.

(** ** Request handlers ([app/api/v1/routes.py])

    Each handler takes the clock, the user resolved by its authentication
    dependency and the session.  A handler that lets the exception of a
    failed commit through is answered by the application's handler, with
    500 and the session as it was.  An enumeration member interpolated into
    a description or a message is rendered as its value. *)

Module ComplaintAssignment.
Record t := mk {
  complaint_id : Z;
  assigned_to_ids : list Z
}.
End ComplaintAssignment.

(** [filename.split('.')[-1].lower()], on ASCII letters. *)
Fixpoint last_segment (acc s : string) : string :=
  match s with
  | EmptyString => acc
  | String c s' =>
      if bool_decide (c = "."%char) then last_segment "" s'
      else last_segment (acc +:+ String c "") s'
  end.

Definition lower_char (c : ascii) : ascii :=
  let n := nat_of_ascii c in
  if bool_decide (65 ≤ n ≤ 90)%nat then ascii_of_nat (n + 32) else c.

Fixpoint lower (s : string) : string :=
  match s with
  | EmptyString => EmptyString
  | String c s' => String (lower_char c) (lower s')
  end.

Definition allowed_extensions : list string :=
  ["pdf"; "jpg"; "jpeg"; "png"; "doc"; "docx"; "txt"].

Definition max_size : Z := 10 * 1024 * 1024.

(** ** More of [app/core/security.py] *)

Definition require_roles (allowed_roles : list UserRole) (current_user : User.t)
  : Result User.t :=
  if bool_decide (User.role current_user ∉ allowed_roles)
  then HTTPException HTTP_403_FORBIDDEN
         "Operation not permitted. Insufficient privileges."
  else Ok current_user.

Definition get_super_admin_user (current_user : User.t) : Result User.t :=
  if bool_decide (User.role current_user ≠ SUPER_ADMIN)
  then HTTPException HTTP_403_FORBIDDEN "Super admin privileges required"
  else Ok current_user.

Definition same_university_required (current_user : User.t)
    (resource_university_id : Z) : Result bool :=
  if bool_decide (User.university_id current_user ≠ resource_university_id)
     && bool_decide (User.role current_user ≠ SUPER_ADMIN)
  then HTTPException HTTP_403_FORBIDDEN "Access denied. Different university."
  else Ok true.

Definition validate_file_upload (filename : string) (file_size : Z)
    (allowed_extensions : list string) : bool :=
  if bool_decide (filename = "") then false
  else
    let file_ext := lower (last_segment "" filename) in
    if bool_decide (file_ext ∉ allowed_extensions) then false
    else if bool_decide (10 * 1024 * 1024 < file_size) then false
    else true.

(** [sanitize_input] works on the characters of its argument: a text is the
    list of its code points here.  [isspace] is the interpreter's table of
    the characters that [strip] removes. *)

Definition dangerous_chars : list N := [60; 62; 34; 39; 38]%N.

Fixpoint lstrip (isspace : N → bool) (text : list N) : list N :=
  match text with
  | [] => []
  | c :: text' => if isspace c then lstrip isspace text' else text
  end.

Definition rstrip (isspace : N → bool) (text : list N) : list N :=
  reverse (lstrip isspace (reverse text)).

Definition strip (isspace : N → bool) (text : list N) : list N :=
  rstrip isspace (lstrip isspace text).

(** [text.replace(char, '')] for a single character. *)
Definition replace_char (char : N) (text : list N) : list N :=
  filter (λ c, c ≠ char) text.

Definition sanitize_input (isspace : N → bool) (text : list N) : list N :=
  match text with
  | [] => []
  | _ => strip isspace (foldl (λ text char, replace_char char text) text dangerous_chars)
  end.

Module routes.

Definition register (db : Db) (user_data : UserCreate.t) : Db * Result Z :=
  if bool_decide (is_Some (CRUDUser.get_by_email db (UserCreate.email user_data))) then
    (db, HTTPException HTTP_400_BAD_REQUEST "Email already registered")
  else if bool_decide (is_Some (CRUDUser.get_by_username db (UserCreate.username user_data))) then
    (db, HTTPException HTTP_400_BAD_REQUEST "Username already taken")
  else if bool_decide (UserCreate.university_id user_data ∉ universities db) then
    (db, HTTPException HTTP_400_BAD_REQUEST "University not found")
  else if truthy_int (UserCreate.department_id user_data)
          && bool_decide (default 0 (UserCreate.department_id user_data) ∉ departments db)
  then (db, HTTPException HTTP_400_BAD_REQUEST "Department not found")
  else
    let '(db, user) := CRUDUser.create db user_data in
    (db, Ok (User.id user)).

Definition update_user (current_user : User.t) (db : Db) (user_id : Z)
    (user_update : UserUpdate.t) : Db * Result User.t :=
  match get_admin_user current_user with
  | HTTPException code detail => (db, HTTPException code detail)
  | Ok current_user =>
      match get_user db user_id with
      | None => (db, HTTPException HTTP_404_NOT_FOUND "User not found")
      | Some user =>
          if bool_decide (User.role current_user ∉ [SUPER_ADMIN; ADMIN])
             && bool_decide (User.id current_user ≠ user_id)
          then (db, HTTPException HTTP_403_FORBIDDEN "Permission denied")
          else
            let '(db, updated_user) := CRUDUser.update db user user_update in
            (db, Ok updated_user)
      end
  end.

Definition create_complaint (now : Z) (current_user : User.t) (db : Db)
    (complaint_data : ComplaintCreate.t) : Db * Result Complaint.t :=
  if bool_decide (ComplaintCreate.university_id complaint_data
                  ≠ User.university_id current_user)
  then (db, HTTPException HTTP_403_FORBIDDEN
              "Cannot create complaint for different university")
  else
    match CRUDComplaint.create now db complaint_data (User.id current_user) with
    | None => (db, unhandled_exception)
    | Some (db, complaint) =>
        let '(db, _) :=
          CRUDActivity.log_activity db (Complaint.id complaint) (User.id current_user)
            "complaint_created"
            ("Complaint '" +:+ Complaint.title complaint +:+ "' created by "
             +:+ User.full_name current_user)
            None None in
        let admins :=
          CRUDUser.get_admins_by_university db (User.university_id current_user) in
        let db :=
          foldl (λ db admin,
                   (NotificationService.create_notification db (User.id admin)
                      "New Complaint Submitted"
                      ("A new complaint '" +:+ Complaint.title complaint
                       +:+ "' has been submitted by " +:+ User.full_name current_user)
                      (Some (Complaint.id complaint)) "system").1)
                db admins in
        (db, Ok complaint)
    end.

Definition update_complaint (current_user : User.t) (db : Db) (complaint_id : Z)
    (complaint_update : ComplaintUpdate.t) : Db * Result Complaint.t :=
  match CRUDComplaint.get db complaint_id with
  | None => (db, HTTPException HTTP_404_NOT_FOUND "Complaint not found")
  | Some complaint =>
      if negb (can_access_complaint current_user complaint) then
        (db, HTTPException HTTP_403_FORBIDDEN "Access denied")
      else if bool_decide (User.role current_user = STUDENT)
              && (bool_decide (Complaint.complainant_id complaint ≠ User.id current_user)
                  || bool_decide (Complaint.status complaint = RESOLVED))
      then (db, HTTPException HTTP_403_FORBIDDEN "Cannot update this complaint")
      else
        let old_status := Complaint.status complaint in
        let old_priority := Complaint.priority complaint in
        match CRUDComplaint.update db complaint complaint_update with
        | None => (db, unhandled_exception)
        | Some (db, updated_complaint) =>
            let db :=
              match ComplaintUpdate.status complaint_update with
              | Some status =>
                  if bool_decide (old_status ≠ status) then
                    (CRUDActivity.log_activity db complaint_id (User.id current_user)
                       "status_changed"
                       ("Status changed from " +:+ status_value old_status
                        +:+ " to " +:+ status_value status)
                       (Some (status_value old_status))
                       (Some (status_value status))).1
                  else db
              | None => db
              end in
            let db :=
              match ComplaintUpdate.priority complaint_update with
              | Some priority =>
                  if bool_decide (old_priority ≠ priority) then
                    (CRUDActivity.log_activity db complaint_id (User.id current_user)
                       "priority_changed"
                       ("Priority changed from " +:+ priority_value old_priority
                        +:+ " to " +:+ priority_value priority)
                       (Some (priority_value old_priority))
                       (Some (priority_value priority))).1
                  else db
              | None => db
              end in
            (db, Ok updated_complaint)
        end
  end.

Definition assign_complaint (current_user : User.t) (db : Db) (complaint_id : Z)
    (assignment : ComplaintAssignment.t) : Db * Result string :=
  match get_admin_user current_user with
  | HTTPException code detail => (db, HTTPException code detail)
  | Ok current_user =>
      match CRUDComplaint.get db complaint_id with
      | None => (db, HTTPException HTTP_404_NOT_FOUND "Complaint not found")
      | Some complaint =>
          if bool_decide (User.role current_user ≠ SUPER_ADMIN)
             && bool_decide (Complaint.university_id complaint
                             ≠ User.university_id current_user)
          then (db, HTTPException HTTP_403_FORBIDDEN "Access denied")
          else
            let '(db, updated_complaint) :=
              CRUDComplaint.assign_users db complaint_id
                (ComplaintAssignment.assigned_to_ids assignment) in
            let assigned_users := CRUDUser.get_multi db 0 100 in
            let assigned_names :=
              User.full_name <$>
                filter (λ u, User.id u ∈ ComplaintAssignment.assigned_to_ids assignment)
                       assigned_users in
            let '(db, _) :=
              CRUDActivity.log_activity db complaint_id (User.id current_user)
                "complaint_assigned"
                ("Complaint assigned to: " +:+ String.concat ", " assigned_names)
                None None in
            let db :=
              foldl (λ db user_id,
                       (NotificationService.create_notification db user_id
                          "Complaint Assigned"
                          ("You have been assigned to complaint: "
                           +:+ Complaint.title complaint)
                          (Some complaint_id) "system").1)
                    db (ComplaintAssignment.assigned_to_ids assignment) in
            (db, Ok "Complaint assigned successfully")
      end
  end.

Definition update_complaint_status (now : Z) (current_user : User.t) (db : Db)
    (complaint_id : Z) (status_update : ComplaintStatusUpdate.t) : Db * Result string :=
  match get_admin_user current_user with
  | HTTPException code detail => (db, HTTPException code detail)
  | Ok current_user =>
      let status := ComplaintStatusUpdate.status status_update in
      match CRUDComplaint.update_status now db complaint_id status
              (ComplaintStatusUpdate.resolution status_update)
              (if bool_decide (status = RESOLVED)
               then Some (User.id current_user) else None)
      with
      | (db, None) => (db, HTTPException HTTP_404_NOT_FOUND "Complaint not found")
      | (db, Some (complaint, old_status)) =>
          let '(db, _) :=
            CRUDActivity.log_activity db complaint_id (User.id current_user)
              "status_updated"
              ("Status updated from " +:+ status_value old_status
               +:+ " to " +:+ status_value status)
              (Some (status_value old_status)) (Some (status_value status)) in
          let '(db, _) :=
            NotificationService.create_notification db
              (Complaint.complainant_id complaint)
              "Complaint Status Updated"
              ("Your complaint '" +:+ Complaint.title complaint
               +:+ "' status has been updated to " +:+ status_value status)
              (Some complaint_id) "system" in
          (db, Ok "Status updated successfully")
      end
  end.

(** [saved] is what the file collaborator answers to [save_uploaded_file]:
    the stored path, or [None] when it raises.  Whatever raises after the
    checks, the insert of the attachment included, is answered with 500. *)
Definition upload_file (current_user : User.t) (db : Db) (complaint_id : Z)
    (file : UploadFile.t) (saved : option string) : Db * Result Z :=
  match CRUDComplaint.get db complaint_id with
  | None => (db, HTTPException HTTP_404_NOT_FOUND "Complaint not found")
  | Some complaint =>
      if negb (can_access_complaint current_user complaint) then
        (db, HTTPException HTTP_403_FORBIDDEN "Access denied")
      else
        let file_extension := lower (last_segment "" (UploadFile.filename file)) in
        if bool_decide (file_extension ∉ allowed_extensions) then
          (db, HTTPException HTTP_400_BAD_REQUEST
                 ("File type not allowed. Allowed types: "
                  +:+ String.concat ", " allowed_extensions))
        else if bool_decide (max_size < UploadFile.size file) then
          (db, HTTPException HTTP_400_BAD_REQUEST
                 "File size too large. Maximum size is 10MB")
        else
          match saved with
          | None => (db, HTTPException HTTP_500_INTERNAL_SERVER_ERROR
                           "Failed to upload file")
          | Some file_path =>
              match CRUDAttachment.create db (UploadFile.filename file) file_path
                      complaint_id with
              | None => (db, HTTPException HTTP_500_INTERNAL_SERVER_ERROR
                               "Failed to upload file")
              | Some (db, attachment) =>
                  let db :=
                    set_attachments
                      (update_first
                         (λ a, bool_decide (Attachment.id a = Attachment.id attachment))
                         (CRUDAttachment.set_uploaded_by_id (Some (User.id current_user)))
                         (attachments db)) db in
                  let '(db, _) :=
                    CRUDActivity.log_activity db complaint_id (User.id current_user)
                      "file_uploaded"
                      ("File '" +:+ UploadFile.filename file +:+ "' uploaded")
                      None None in
                  (db, Ok (Attachment.id attachment))
              end
          end
  end.

(** The recipients are collected in a Python set, whose iteration order is
    not specified; one order without repetition is taken here. *)
Definition create_message (current_user : User.t) (db : Db) (complaint_id : Z)
    (message_data : MessageCreate.t) : Db * Result Message.t :=
  match CRUDComplaint.get db complaint_id with
  | None => (db, HTTPException HTTP_404_NOT_FOUND "Complaint not found")
  | Some complaint =>
      if negb (can_access_complaint current_user complaint) then
        (db, HTTPException HTTP_403_FORBIDDEN "Access denied")
      else
        let '(db, message) :=
          CRUDMessage.create db message_data (User.id current_user) in
        let '(db, _) :=
          CRUDActivity.log_activity db complaint_id (User.id current_user)
            "message_added"
            ("Message added by " +:+ User.full_name current_user)
            None None in
        let notify_users :=
          Complaint.complainant_id complaint :: Complaint.assigned_to complaint in
        let notify_users := remove_dups notify_users in
        let notify_users := filter (λ uid, uid ≠ User.id current_user) notify_users in
        let db :=
          foldl (λ db user_id,
                   (NotificationService.create_notification db user_id
                      "New Message"
                      ("New message on complaint: " +:+ Complaint.title complaint)
                      (Some complaint_id) "system").1)
                db notify_users in
        (db, Ok message)
  end.

Definition get_messages (current_user : User.t) (db : Db) (complaint_id : Z)
    (include_internal : bool) : Result (list Message.t) :=
  match CRUDComplaint.get db complaint_id with
  | None => HTTPException HTTP_404_NOT_FOUND "Complaint not found"
  | Some complaint =>
      if negb (can_access_complaint current_user complaint) then
        HTTPException HTTP_403_FORBIDDEN "Access denied"
      else
        let include_internal :=
          if include_internal
             && bool_decide (User.role current_user ∉ [ADMIN; STAFF; SUPER_ADMIN])
          then false else include_internal in
        Ok (CRUDMessage.get_by_complaint db complaint_id include_internal)
  end.

(** The [stats] part of the dashboard; the monthly trends are left out. *)
Definition get_dashboard_analytics (now : Z) (current_user : User.t) (db : Db)
  : Result Statistics :=
  match get_admin_user current_user with
  | HTTPException code detail => HTTPException code detail
  | Ok current_user =>
      Ok (CRUDComplaint.get_statistics now db (User.university_id current_user)
            None None None)
  end.

Definition mark_notification_read (current_user : User.t) (db : Db)
    (notification_id : Z) : Db * Result string :=
  match CRUDNotification.mark_as_read db notification_id (User.id current_user) with
  | (db, None) => (db, HTTPException HTTP_404_NOT_FOUND "Notification not found")
  | (db, Some _) => (db, Ok "Notification marked as read")
  end.

Definition mark_all_notifications_read (current_user : User.t) (db : Db)
  : Db * Result string :=
  let '(db, _) := CRUDNotification.mark_all_as_read db (User.id current_user) in
  (db, Ok "All notifications marked as read").

(** Read-only handlers. *)

Definition get_users (current_user : User.t) (db : Db) (skip limit : nat)
  : Result (list User.t) :=
  match get_admin_user current_user with
  | HTTPException code detail => HTTPException code detail
  | Ok current_user =>
      if bool_decide (User.role current_user = SUPER_ADMIN)
      then Ok (CRUDUser.get_multi db skip limit)
      else Ok (CRUDUser.get_by_university db (User.university_id current_user)
                 skip limit)
  end.

Definition get_user (current_user : User.t) (db : Db) (user_id : Z) : Result User.t :=
  match get_admin_user current_user with
  | HTTPException code detail => HTTPException code detail
  | Ok current_user =>
      match get_user db user_id with
      | None => HTTPException HTTP_404_NOT_FOUND "User not found"
      | Some user =>
          if bool_decide (User.role current_user ≠ SUPER_ADMIN)
             && bool_decide (User.university_id user ≠ User.university_id current_user)
          then HTTPException HTTP_403_FORBIDDEN "Access denied"
          else Ok user
      end
  end.

Definition get_complaint (current_user : User.t) (db : Db) (complaint_id : Z)
  : Result Complaint.t :=
  match get_complaint db complaint_id with
  | None => HTTPException HTTP_404_NOT_FOUND "Complaint not found"
  | Some complaint =>
      if negb (can_access_complaint current_user complaint)
      then HTTPException HTTP_403_FORBIDDEN "Access denied"
      else Ok complaint
  end.

Definition get_notifications (current_user : User.t) (db : Db) (unread_only : bool)
  : list Notification.t :=
  CRUDNotification.get_by_user db (User.id current_user) unread_only.

End routes.

(** ** Demo data ([main.py]) *)

Definition create_default_data (db : Db) : Db :=
  if bool_decide (0 < len (universities db)) then db
  else
    let university_id := next_id (universities db) in
    let db :=
      mkDb (universities db ++ [university_id]) (departments db) (users db)
           (complaints db) (messages db) (activities db) (notifications db)
           (attachments db) in
    let '(db, _) :=
      CRUDUser.create db
        (UserCreate.mk "admin@demo.edu" "admin" "System Administrator"
                       SUPER_ADMIN university_id None) in
    let '(db, _) :=
      CRUDUser.create db
        (UserCreate.mk "student@demo.edu" "student" "Demo Student"
                       STUDENT university_id None) in
    db.

Definition reset_demo_data (db : Db) : Db := create_default_data empty_db.

(** ** The service as a transition system

    A request carries the user id of its bearer token (none for the two
    open endpoints); [handle] resolves the user and runs the handler. *)

Inductive Request :=
| POST_auth_register (user_data : UserCreate.t)
| PUT_users (token user_id : Z) (user_update : UserUpdate.t)
| POST_complaints (token : Z) (complaint_data : ComplaintCreate.t)
| PUT_complaints (token complaint_id : Z) (complaint_update : ComplaintUpdate.t)
| POST_complaints_assign (token complaint_id : Z) (assignment : ComplaintAssignment.t)
| POST_complaints_status (token complaint_id : Z) (status_update : ComplaintStatusUpdate.t)
| POST_complaints_upload (token complaint_id : Z) (file : UploadFile.t)
                         (saved : option string)
| POST_complaints_messages (token complaint_id : Z) (message_data : MessageCreate.t)
| POST_notifications_read (token notification_id : Z)
| POST_notifications_read_all (token : Z)
| POST_system_reset_demo_data.

Definition authenticated {A : Type} (db : Db) (token : Z)
    (handler : User.t → Db * Result A) : Db :=
  match get_current_active_user db token with
  | Ok current_user => (handler current_user).1
  | HTTPException _ _ => db
  end.

Definition handle (now : Z) (db : Db) (request : Request) : Db :=
  match request with
  | POST_auth_register user_data => (routes.register db user_data).1
  | PUT_users token user_id user_update =>
      authenticated db token (λ u, routes.update_user u db user_id user_update)
  | POST_complaints token complaint_data =>
      authenticated db token (λ u, routes.create_complaint now u db complaint_data)
  | PUT_complaints token complaint_id complaint_update =>
      authenticated db token
        (λ u, routes.update_complaint u db complaint_id complaint_update)
  | POST_complaints_assign token complaint_id assignment =>
      authenticated db token (λ u, routes.assign_complaint u db complaint_id assignment)
  | POST_complaints_status token complaint_id status_update =>
      authenticated db token
        (λ u, routes.update_complaint_status now u db complaint_id status_update)
  | POST_complaints_upload token complaint_id file saved =>
      authenticated db token (λ u, routes.upload_file u db complaint_id file saved)
  | POST_complaints_messages token complaint_id message_data =>
      authenticated db token (λ u, routes.create_message u db complaint_id message_data)
  | POST_notifications_read token notification_id =>
      authenticated db token (λ u, routes.mark_notification_read u db notification_id)
  | POST_notifications_read_all token =>
      authenticated db token (λ u, routes.mark_all_notifications_read u db)
  | POST_system_reset_demo_data => reset_demo_data db
  end.

(** The session after a sequence of requests, each stamped with its time. *)
Definition run (db : Db) (requests : list (Z * Request)) : Db :=
  foldl (λ db '(now, request), handle now db request) db requests.

(** ** The tenant invariant

    Every complaint row names a complainant that is a user row of the same
    university. *)
Definition university_invariant (db : Db) : Prop :=
  ∀ c, c ∈ complaints db →
    ∃ u, get_user db (Complaint.complainant_id c) = Some u
         ∧ Complaint.university_id c = User.university_id u.

(** ** Rows are never dropped

    [grows db db'] says that [db'] still holds every activity, message and
    attachment of [db], unchanged and in place, and every user, complaint and
    notification id of [db]: the tables of [db'] extend those of [db] at the
    end. *)
Definition grows (db db' : Db) : Prop :=
  activities db `prefix_of` activities db'
  ∧ messages db `prefix_of` messages db'
  ∧ attachments db `prefix_of` attachments db'
  ∧ (Complaint.id <$> complaints db) `prefix_of` (Complaint.id <$> complaints db')
  ∧ (User.id <$> users db) `prefix_of` (User.id <$> users db')
  ∧ (Notification.id <$> notifications db)
    `prefix_of` (Notification.id <$> notifications db').

(** ** A small deployment used in the examples

    University 1 with admin A, student S and staff member T; university 2
    with admin B.  Student S has filed complaint X, which is assigned to T. *)

Definition admin_A : User.t :=
  User.mk 1 "a@demo.edu" "admin_a" "Admin A" ADMIN None 1 true.
Definition student_S : User.t :=
  User.mk 2 "s@demo.edu" "student_s" "Student S" STUDENT None 1 true.
Definition staff_T : User.t :=
  User.mk 3 "t@demo.edu" "staff_t" "Staff T" STAFF None 1 true.
Definition admin_B : User.t :=
  User.mk 4 "b@other.edu" "admin_b" "Admin B" ADMIN None 2 true.

Definition complaint_X : Complaint.t :=
  Complaint.mk 1 "Broken heater" "The heater in room 12 is broken" HOUSING MEDIUM
    SUBMITTED 2 1 None None None None (Some 1000) None None [3].

Definition demo_db : Db :=
  mkDb [1; 2] [] [admin_A; student_S; staff_T; admin_B] [complaint_X] [] [] [] [].

(** The same deployment once X has been closed. *)
Definition closed_db : Db := set_complaints [set_status CLOSED complaint_X] demo_db.

(** The deployment after admin A has resolved X: S holds one notification. *)
Definition notified_db : Db :=
  (routes.update_complaint_status 2000 admin_A demo_db 1
     (ComplaintStatusUpdate.mk RESOLVED (Some "fixed"))).1.

(** The deployment after S has asked a question on X and A has left an
    internal note. *)
Definition chat_db : Db :=
  (routes.create_message admin_A
     (routes.create_message student_S demo_db 1
        (MessageCreate.mk "Any news?" false 1)).1
     1 (MessageCreate.mk "Waiting for parts" true 1)).1.


(** A body that reopens a complaint and changes nothing else. *)
Definition reopen : ComplaintUpdate.t :=
  ComplaintUpdate.mk None None None None (Some SUBMITTED) None None None.

(** A second complaint, filed by admin A and assigned to T. *)
Definition complaint_Y : Complaint.t :=
  Complaint.mk 2 "Broken projector" "The projector in hall 3 is broken" FACILITIES LOW
    SUBMITTED 1 1 None None None None (Some 1500) None None [3].

Definition two_complaints_db : Db := set_complaints [complaint_X; complaint_Y] demo_db.

(** A complaint S files for university 1, and the same body aimed at
    university 2. *)
Definition noisy_dorm : ComplaintCreate.t :=
  ComplaintCreate.mk "Noisy dorm" "Loud music every night" HOUSING LOW None 1.

Definition noisy_dorm_elsewhere : ComplaintCreate.t :=
  ComplaintCreate.mk "Noisy dorm" "Loud music every night" HOUSING LOW None 2.

(** Bodies that change the title only, and the status and the priority
    together. *)
Definition retitle : ComplaintUpdate.t :=
  ComplaintUpdate.mk (Some "Broken heater, room 12") None None None None None None None.

Definition escalate_urgent : ComplaintUpdate.t :=
  ComplaintUpdate.mk None None None (Some URGENT) (Some ESCALATED) None None None.

(** A newcomer to university 1, and a change of contact data. *)
Definition newcomer : UserCreate.t :=
  UserCreate.mk "n@demo.edu" "newcomer" "New Student" STUDENT 1 None.


(** Turns the boolean tests left by a case analysis into propositions. *)
Ltac bool_decide_to_prop :=
  repeat match goal with
         | H : bool_decide _ = true |- _ => apply bool_decide_eq_true in H
         | H : bool_decide _ = false |- _ => apply bool_decide_eq_false in H
         end.

(** * Properties *)

(** ** Rows fetched with [first()] and updated in place *)

Section update_first.
Context {A : Type} (p : A → bool) (f : A → A).

Lemma update_first_None (rows : list A) :
  find p rows = None → update_first p f rows = rows.
Proof.
  induction rows as [|row rows IH]; simpl; [done|].
  destruct (p row); [done|]. intros Hnone. by rewrite IH.
Qed.

Lemma find_update_first (rows : list A) :
  (∀ x, p (f x) = p x) →
  find p (update_first p f rows) = f <$> find p rows.
Proof.
  intros Hp. induction rows as [|row rows IH]; simpl; [done|].
  destruct (p row) eqn:E; simpl.
  - by rewrite Hp, E.
  - by rewrite E.
Qed.

Lemma update_first_split (rows : list A) (x : A) :
  find p rows = Some x →
  ∃ before after,
    rows = before ++ x :: after
    ∧ update_first p f rows = before ++ f x :: after
    ∧ Forall (λ y, p y = false) before.
Proof.
  induction rows as [|row rows IH]; simpl; [done|].
  destruct (p row) eqn:E.
  - intros [= ->]. by exists [], rows.
  - intros Hfind. destruct (IH Hfind) as (before & after & -> & -> & Hbefore).
    exists (row :: before), after. repeat split; [done..|]. by constructor.
Qed.

Lemma find_update_first_other (q : A → bool) (rows : list A) (x : A) :
  (∀ y, q (f y) = q y) →
  find q rows = Some x →
  find q (update_first p f rows) = Some x
  ∨ find q (update_first p f rows) = Some (f x).
Proof.
  intros Hq. induction rows as [|row rows IH]; simpl; [done|].
  destruct (p row) eqn:Ep; simpl.
  - rewrite Hq. destruct (q row); [|by left].
    intros [= ->]. by right.
  - destruct (q row); [by left|]. apply IH.
Qed.

Lemma elem_of_update_first (rows : list A) (x : A) :
  x ∈ update_first p f rows → x ∈ rows ∨ ∃ y, y ∈ rows ∧ p y = true ∧ x = f y.
Proof.
  induction rows as [|row rows IH]; simpl; [by left|].
  destruct (p row) eqn:E; rewrite !elem_of_cons.
  - intros [->|H]; [right; exists row|left]; rewrite ?elem_of_cons; auto.
  - intros [->|H]; [by left; left|].
    destruct (IH H) as [?|(y & ? & ? & ?)]; [by left; right|].
    right. exists y. rewrite elem_of_cons. auto.
Qed.

Lemma update_first_Forall2 (rows : list A) :
  Forall2 (λ x y, y = x ∨ (p x = true ∧ y = f x)) rows (update_first p f rows).
Proof.
  induction rows as [|row rows IH]; simpl; [constructor|].
  destruct (p row) eqn:E; constructor; auto.
  apply Forall2_same_length_lookup_2; [done|].
  intros i x y Hx Hy. left. congruence.
Qed.

Lemma update_first_idemp (rows : list A) :
  (∀ x, p (f x) = p x) → (∀ x, f (f x) = f x) →
  update_first p f (update_first p f rows) = update_first p f rows.
Proof.
  intros Hp Hf. induction rows as [|row rows IH]; simpl; [done|].
  destruct (p row) eqn:E; simpl.
  - by rewrite Hp, E, Hf.
  - by rewrite E, IH.
Qed.

Lemma elem_of_update_first_unaffected (rows : list A) (x : A) :
  x ∈ rows → p x = false → x ∈ update_first p f rows.
Proof.
  intros Hin Hp. induction rows as [|row rows IH]; simpl; [done|].
  apply elem_of_cons in Hin as [->|Hin].
  - rewrite Hp. by left.
  - destruct (p row); right; auto.
Qed.

End update_first.

Lemma find_bool_decide_Some {A : Type} (P : A → Prop) `{!∀ x, Decision (P x)}
    (rows : list A) (x : A) :
  find (λ y, bool_decide (P y)) rows = Some x → P x ∧ x ∈ rows.
Proof.
  intros Hfind. apply find_some in Hfind as [Hin Hp].
  apply bool_decide_eq_true in Hp. by rewrite list_elem_of_In.
Qed.

Lemma filter_none {A : Type} (P : A → Prop) `{!∀ x, Decision (P x)} (l : list A) :
  (∀ x, ¬ P x) → filter P l = [].
Proof.
  intros HP. induction l as [|x l IH]; [done|].
  rewrite filter_cons. destruct (decide (P x)); [by destruct (HP x)|done].
Qed.

Lemma get_complaint_Some (db : Db) (id : Z) (c : Complaint.t) :
  get_complaint db id = Some c → Complaint.id c = id ∧ c ∈ complaints db.
Proof. apply (find_bool_decide_Some (λ c, Complaint.id c = id)). Qed.

Lemma get_user_Some (db : Db) (id : Z) (u : User.t) :
  get_user db id = Some u → User.id u = id ∧ u ∈ users db.
Proof. apply (find_bool_decide_Some (λ u, User.id u = id)). Qed.

(** ** Access control *)

(** C1: [can_access_complaint] grants access exactly to a super admin, or
    to a user of the complaint's university who is its complainant, one of
    its assigned users, or staff/admin; a user of another university who is
    not super admin is refused, and so is anybody else. *)
Theorem can_access_complaint_spec (current_user : User.t) (complaint : Complaint.t) :
  can_access_complaint current_user complaint = true ↔
    User.role current_user = SUPER_ADMIN
    ∨ (User.university_id current_user = Complaint.university_id complaint
       ∧ (Complaint.complainant_id complaint = User.id current_user
          ∨ User.id current_user ∈ Complaint.assigned_to complaint
          ∨ User.role current_user = STAFF
          ∨ User.role current_user = ADMIN)).
Proof.
  unfold can_access_complaint.
  repeat case_bool_decide; rewrite ?elem_of_cons, ?elem_of_nil in *;
    intuition congruence.
Qed.

(** The scenario of the specification: the admin of a second university is
    refused on X, the complainant and the assignee are admitted. *)
Example can_access_demo :
  can_access_complaint admin_B complaint_X = false
  ∧ can_access_complaint student_S complaint_X = true
  ∧ can_access_complaint staff_T complaint_X = true
  ∧ can_access_complaint admin_A complaint_X = true.
Proof. by vm_compute. Qed.

(** ** Assignment *)

Lemma set_assigned_to_id (v : list Z) (c : Complaint.t) :
  Complaint.id (set_assigned_to v c) = Complaint.id c.
Proof. done. Qed.

Lemma assign_users_Some (db : Db) (complaint_id : Z) (user_ids : list Z)
    (complaint : Complaint.t) :
  get_complaint db complaint_id = Some complaint →
  CRUDComplaint.assign_users db complaint_id user_ids =
    let assign :=
      set_assigned_to (User.id <$> filter (λ u, User.id u ∈ user_ids) (users db)) in
    (set_complaints
       (update_first (λ c, bool_decide (Complaint.id c = complaint_id)) assign
                     (complaints db)) db,
     Some (assign complaint)).
Proof. intros Hget. unfold CRUDComplaint.assign_users. by rewrite Hget. Qed.

(** C4: on an existing complaint [assign_users] replaces the assigned set by
    exactly the users whose ids are listed, whatever was assigned before:
    the result holds each such user once, depends only on the set of ids in
    the list (so duplicates collapse), is empty for the empty list, and
    assigning the same list again changes nothing. *)
Theorem assign_users_replaces (db : Db) (complaint_id : Z) (user_ids : list Z)
    (complaint : Complaint.t) :
  get_complaint db complaint_id = Some complaint →
  NoDup (User.id <$> users db) →
  ∃ db' complaint',
    CRUDComplaint.assign_users db complaint_id user_ids = (db', Some complaint')
    ∧ get_complaint db' complaint_id = Some complaint'
    ∧ (∀ uid, uid ∈ Complaint.assigned_to complaint'
              ↔ uid ∈ user_ids ∧ ∃ u, u ∈ users db ∧ User.id u = uid)
    ∧ NoDup (Complaint.assigned_to complaint')
    ∧ (user_ids = [] → Complaint.assigned_to complaint' = [])
    ∧ (∀ user_ids', (∀ uid, uid ∈ user_ids ↔ uid ∈ user_ids') →
         CRUDComplaint.assign_users db complaint_id user_ids' = (db', Some complaint'))
    ∧ CRUDComplaint.assign_users db' complaint_id user_ids = (db', Some complaint').
Proof.
  intros Hget Hkeys.
  rewrite (assign_users_Some _ _ _ _ Hget). cbv zeta.
  set (assign := set_assigned_to _).
  assert (Hget' : get_complaint
            (set_complaints
               (update_first (λ c, bool_decide (Complaint.id c = complaint_id)) assign
                  (complaints db)) db) complaint_id = Some (assign complaint)).
  { unfold get_complaint in *. simpl. rewrite find_update_first by done.
    by rewrite Hget. }
  eexists _, _. split; [reflexivity|]. split; [exact Hget'|].
  split; [|split; [|split; [|split]]].
  - intros uid. subst assign. simpl.
    rewrite list_elem_of_fmap. setoid_rewrite list_elem_of_filter.
    split.
    + intros (u & -> & ? & ?). eauto.
    + intros (? & u & ? & <-). eauto.
  - subst assign. simpl.
    eapply sublist_NoDup; [exact Hkeys|].
    apply fmap_sublist, sublist_filter.
  - intros ->. subst assign. simpl.
    rewrite filter_none; [done|]. intros u. apply not_elem_of_nil.
  - intros user_ids' Hsame.
    rewrite (assign_users_Some _ _ _ _ Hget). cbv zeta. subst assign.
    by rewrite (list_filter_iff (λ u, User.id u ∈ user_ids')
                                (λ u, User.id u ∈ user_ids)).
  - rewrite (assign_users_Some _ _ _ _ Hget'). cbv zeta. simpl.
    fold assign. by rewrite update_first_idemp.
Qed.

Lemma assign_users_replaces_witness :
  ∃ db' complaint',
    CRUDComplaint.assign_users demo_db 1 [3; 1; 3; 99] = (db', Some complaint')
    ∧ get_complaint db' 1 = Some complaint'
    ∧ (∀ uid, uid ∈ Complaint.assigned_to complaint'
              ↔ uid ∈ [3; 1; 3; 99] ∧ ∃ u, u ∈ users demo_db ∧ User.id u = uid)
    ∧ NoDup (Complaint.assigned_to complaint')
    ∧ ([3; 1; 3; 99] = [] → Complaint.assigned_to complaint' = [])
    ∧ (∀ user_ids', (∀ uid, uid ∈ [3; 1; 3; 99] ↔ uid ∈ user_ids') →
         CRUDComplaint.assign_users demo_db 1 user_ids' = (db', Some complaint'))
    ∧ CRUDComplaint.assign_users db' 1 [3; 1; 3; 99] = (db', Some complaint').
Proof.
  apply (assign_users_replaces demo_db 1 [3; 1; 3; 99] complaint_X).
  - reflexivity.
  - vm_compute. repeat constructor; rewrite ?elem_of_cons, ?elem_of_nil; lia.
Defined.

(** Duplicates, unknown ids and the previous assignee: only A and T remain. *)
Example assign_users_demo :
  Complaint.assigned_to
    <$> (CRUDComplaint.assign_users demo_db 1 [3; 1; 3; 99]).2 = Some [1; 3].
Proof. by vm_compute. Qed.

(** ** Status updates *)

Lemma apply_status_id (now : Z) (status : ComplaintStatus) (resolution : option string)
    (resolved_by_id : option Z) (c : Complaint.t) :
  Complaint.id (CRUDComplaint.apply_status now status resolution resolved_by_id c)
  = Complaint.id c.
Proof.
  unfold CRUDComplaint.apply_status.
  case_bool_decide; [destruct (truthy_str resolution)|]; done.
Qed.

Lemma update_status_Some (now : Z) (db : Db) (complaint_id : Z) (status : ComplaintStatus)
    (resolution : option string) (resolved_by_id : option Z) (complaint : Complaint.t) :
  get_complaint db complaint_id = Some complaint →
  CRUDComplaint.update_status now db complaint_id status resolution resolved_by_id =
    (set_complaints
       (update_first (λ c, bool_decide (Complaint.id c = complaint_id))
          (CRUDComplaint.apply_status now status resolution resolved_by_id)
          (complaints db)) db,
     Some (CRUDComplaint.apply_status now status resolution resolved_by_id complaint,
           Complaint.status complaint)).
Proof. intros Hget. unfold CRUDComplaint.update_status. by rewrite Hget. Qed.

Lemma update_status_None (now : Z) (db : Db) (complaint_id : Z) (status : ComplaintStatus)
    (resolution : option string) (resolved_by_id : option Z) :
  get_complaint db complaint_id = None →
  CRUDComplaint.update_status now db complaint_id status resolution resolved_by_id
  = (db, None).
Proof. intros Hget. unfold CRUDComplaint.update_status. by rewrite Hget. Qed.

(** C5: on an existing complaint a status update to [RESOLVED] by an admin
    stamps [resolved_at] with the current time and [resolved_by_id] with the
    acting user, stores a non-empty resolution text and keeps the stored one
    otherwise, and [update_status] hands back the prior status; an update to
    any other status changes the status column only.  No other column of
    the complaint changes in either case. *)
Theorem update_status_resolved (now : Z) (current_user : User.t) (db : Db)
    (complaint_id : Z) (status_update : ComplaintStatusUpdate.t)
    (complaint : Complaint.t) :
  get_complaint db complaint_id = Some complaint →
  get_admin_user current_user = Ok current_user →
  let status := ComplaintStatusUpdate.status status_update in
  let resolution := ComplaintStatusUpdate.resolution status_update in
  ∃ db1 db' complaint',
    CRUDComplaint.update_status now db complaint_id status resolution
      (if bool_decide (status = RESOLVED) then Some (User.id current_user) else None)
    = (db1, Some (complaint', Complaint.status complaint))
    ∧ routes.update_complaint_status now current_user db complaint_id status_update
      = (db', Ok "Status updated successfully")
    ∧ get_complaint db1 complaint_id = Some complaint'
    ∧ get_complaint db' complaint_id = Some complaint'
    ∧ Complaint.status complaint' = status
    ∧ (status = RESOLVED →
         Complaint.resolved_at complaint' = Some now
         ∧ Complaint.resolved_by_id complaint' = Some (User.id current_user)
         ∧ (∀ text, resolution = Some text → text ≠ "" →
              Complaint.resolution complaint' = Some text)
         ∧ (resolution = None ∨ resolution = Some "" →
              Complaint.resolution complaint' = Complaint.resolution complaint))
    ∧ (status ≠ RESOLVED → complaint' = set_status status complaint)
    ∧ set_resolution (Complaint.resolution complaint)
        (set_resolved_by_id (Complaint.resolved_by_id complaint)
           (set_resolved_at (Complaint.resolved_at complaint)
              (set_status (Complaint.status complaint) complaint'))) = complaint.
Proof.
  intros Hget Hadmin status resolution.
  set (by_id := if bool_decide (status = RESOLVED) then _ else _).
  pose proof (update_status_Some now db complaint_id status resolution by_id
                complaint Hget) as Hcrud.
  eexists _, _, _. split; [exact Hcrud|].
  split.
  { unfold routes.update_complaint_status. rewrite Hadmin.
    fold status resolution by_id. rewrite Hcrud. reflexivity. }
  split; [|split].
  { unfold get_complaint in *. simpl.
    rewrite find_update_first by (intros; by rewrite apply_status_id).
    by rewrite Hget. }
  { unfold get_complaint in *. simpl.
    rewrite find_update_first by (intros; by rewrite apply_status_id).
    by rewrite Hget. }
  unfold CRUDComplaint.apply_status. subst by_id. destruct complaint.
  case_bool_decide as Hres; simpl;
    [destruct resolution as [text|]; simpl; [case_bool_decide; simpl|]|];
    repeat split; try done; intros;
    repeat match goal with Hor : _ ∨ _ |- _ => destruct Hor end;
    simplify_eq; done.
Qed.

Lemma update_status_resolved_witness :
  ∃ db1 db' complaint',
    CRUDComplaint.update_status 2000 demo_db 1 RESOLVED (Some "fixed") (Some 1)
    = (db1, Some (complaint', SUBMITTED))
    ∧ routes.update_complaint_status 2000 admin_A demo_db 1
        (ComplaintStatusUpdate.mk RESOLVED (Some "fixed"))
      = (db', Ok "Status updated successfully")
    ∧ get_complaint db1 1 = Some complaint'
    ∧ get_complaint db' 1 = Some complaint'
    ∧ Complaint.status complaint' = RESOLVED
    ∧ (RESOLVED = RESOLVED →
         Complaint.resolved_at complaint' = Some 2000
         ∧ Complaint.resolved_by_id complaint' = Some 1
         ∧ (∀ text, Some "fixed" = Some text → text ≠ "" →
              Complaint.resolution complaint' = Some text)
         ∧ (Some "fixed" = None ∨ Some "fixed" = Some "" →
              Complaint.resolution complaint' = None))
    ∧ (RESOLVED ≠ RESOLVED → complaint' = set_status RESOLVED complaint_X)
    ∧ set_resolution None
        (set_resolved_by_id None
           (set_resolved_at None (set_status SUBMITTED complaint'))) = complaint_X.
Proof.
  apply (update_status_resolved 2000 admin_A demo_db 1
           (ComplaintStatusUpdate.mk RESOLVED (Some "fixed")) complaint_X);
    reflexivity.
Defined.

(** ** Marking a notification as read *)

Lemma owned_true (notification_id user_id : Z) (n : Notification.t) :
  CRUDNotification.owned notification_id user_id n = true
  ↔ Notification.id n = notification_id ∧ Notification.user_id n = user_id.
Proof.
  unfold CRUDNotification.owned.
  by rewrite andb_true_iff, !bool_decide_eq_true.
Qed.

(** C10: [mark_as_read] touches the notification table only, and there only
    a row that has the given id and belongs to the caller, of which it sets
    [is_read] and nothing else; rows of other users stay as they are.  When
    no row with that id belongs to the caller nothing changes and the
    handler answers 404; otherwise the handler succeeds, and the table
    afterwards is the table before with the first such row replaced by its
    copy with [is_read] set: that row is stored as read, and it is the row
    the same query fetches again. *)
Theorem mark_as_read_owner_only (current_user : User.t) (db : Db) (notification_id : Z) :
  ∃ db' result,
    CRUDNotification.mark_as_read db notification_id (User.id current_user)
    = (db', result)
    ∧ set_notifications (notifications db) db' = db
    ∧ Forall2 (λ n n', n' = n
                       ∨ (Notification.id n = notification_id
                          ∧ Notification.user_id n = User.id current_user
                          ∧ n' = CRUDNotification.set_is_read true n))
              (notifications db) (notifications db')
    ∧ (∀ n, n ∈ notifications db →
            Notification.user_id n ≠ User.id current_user →
            n ∈ notifications db')
    ∧ ((∀ n, n ∈ notifications db → Notification.id n = notification_id →
             Notification.user_id n ≠ User.id current_user) →
       db' = db ∧ result = None
       ∧ routes.mark_notification_read current_user db notification_id
         = (db, HTTPException HTTP_404_NOT_FOUND "Notification not found"))
    ∧ (∀ n, n ∈ notifications db → Notification.id n = notification_id →
            Notification.user_id n = User.id current_user →
       (∃ n0, n0 ∈ notifications db
              ∧ Notification.id n0 = notification_id
              ∧ Notification.user_id n0 = User.id current_user
              ∧ result = Some (CRUDNotification.set_is_read true n0)
              ∧ (∃ before after,
                   notifications db = before ++ n0 :: after
                   ∧ notifications db'
                     = before ++ CRUDNotification.set_is_read true n0 :: after
                   ∧ ∀ m, m ∈ before →
                          ¬ (Notification.id m = notification_id
                             ∧ Notification.user_id m = User.id current_user))
              ∧ find (CRUDNotification.owned notification_id (User.id current_user))
                     (notifications db')
                = Some (CRUDNotification.set_is_read true n0)
              ∧ Notification.is_read (CRUDNotification.set_is_read true n0) = true)
       ∧ routes.mark_notification_read current_user db notification_id
         = (db', Ok "Notification marked as read")).
Proof.
  unfold routes.mark_notification_read, CRUDNotification.mark_as_read.
  set (p := CRUDNotification.owned notification_id (User.id current_user)).
  destruct (find p (notifications db)) as [n0|] eqn:Hfind.
  - eexists _, _. split; [reflexivity|].
    pose proof (update_first_split p (CRUDNotification.set_is_read true) _ _ Hfind)
      as (before & after & Hdb & Hdb' & Hbefore).
    pose proof (find_update_first p (CRUDNotification.set_is_read true)
                  (notifications db) (λ _, eq_refl)) as Hfind'.
    rewrite Hfind in Hfind'.
    apply find_some in Hfind as [Hin0 Hp0].
    apply list_elem_of_In in Hin0. apply owned_true in Hp0 as [Hid0 Hu0].
    split; [by destruct db|]. split; [|split; [|split]].
    + simpl. eapply Forall2_impl; [apply update_first_Forall2|].
      intros n n' [->|[Hp ->]]; [by left|right].
      by apply owned_true in Hp as [? ?].
    + intros n Hin Hother. simpl.
      apply elem_of_update_first_unaffected; [done|].
      apply not_true_is_false. by intros [_ ?]%owned_true.
    + intros Hnone. by destruct (Hnone n0 Hin0 Hid0).
    + intros n _ _ _. split; [|done]. exists n0.
      split; [done|]. split; [done|]. split; [done|]. split; [done|].
      split; [|by split].
      exists before, after. split; [done|]. split; [exact Hdb'|].
      intros m Hm Howned. rewrite Forall_forall in Hbefore.
      specialize (Hbefore m Hm). apply owned_true in Howned.
      unfold p in Hbefore. congruence.
  - eexists _, _. split; [reflexivity|].
    split; [by destruct db|]. split; [|split; [|split]].
    + apply Forall_Forall2_diag, Forall_forall. by left.
    + done.
    + done.
    + intros n Hin Hid Hu. apply list_elem_of_In in Hin.
      eapply find_none in Hfind; [|exact Hin].
      assert (p n = true) by by apply owned_true. congruence.
Qed.

(** T cannot mark the notification of S as read; S can. *)
Example mark_notification_read_demo :
  routes.mark_notification_read staff_T notified_db 1
  = (notified_db, HTTPException HTTP_404_NOT_FOUND "Notification not found")
  ∧ Notification.is_read
      <$> notifications (routes.mark_notification_read student_S notified_db 1).1
    = [true].
Proof. by vm_compute. Qed.

(** ** Message visibility *)




(** ** Dashboard statistics *)

Lemma status_value_inj (s1 s2 : ComplaintStatus) :
  status_value s1 = status_value s2 → s1 = s2.
Proof. by destruct s1, s2. Qed.

Lemma category_value_inj (c1 c2 : ComplaintCategory) :
  category_value c1 = category_value c2 → c1 = c2.
Proof. by destruct c1, c2. Qed.

Lemma elem_of_all_ComplaintStatus (s : ComplaintStatus) : s ∈ all_ComplaintStatus.
Proof. destruct s; repeat constructor. Qed.

Lemma elem_of_all_ComplaintCategory (c : ComplaintCategory) : c ∈ all_ComplaintCategory.
Proof. destruct c; repeat constructor. Qed.

(** A dictionary filled by one assignment per member of [l]. *)
Lemma lookup_foldl_insert {A : Type} (key : A → string) (val : A → Z)
    (l : list A) (d : gmap string Z) (a : A) :
  (∀ x y, key x = key y → x = y) →
  a ∈ l →
  foldl (λ d x, <[key x := val x]> d) d l !! key a = Some (val a).
Proof.
  intros Hinj. induction l as [|x l IH] using rev_ind; [by intros ?%elem_of_nil|].
  rewrite foldl_app. simpl. intros Hin.
  destruct (decide (key x = key a)) as [Heq|Hne].
  - apply Hinj in Heq as ->. by rewrite lookup_insert_eq.
  - rewrite lookup_insert_ne by done. apply IH.
    apply elem_of_app in Hin as [?|Hx]; [done|].
    apply list_elem_of_singleton in Hx. congruence.
Qed.

Lemma lookup_foldl_insert_is_Some {A : Type} (key : A → string) (val : A → Z)
    (l : list A) (k : string) :
  is_Some (foldl (λ d x, <[key x := val x]> d) (∅ : gmap string Z) l !! k) →
  ∃ a, a ∈ l ∧ key a = k.
Proof.
  induction l as [|x l IH] using rev_ind; simpl.
  - rewrite lookup_empty. by intros [? ?].
  - rewrite foldl_app. simpl.
    destruct (decide (key x = k)) as [<-|Hne].
    + intros _. exists x. rewrite elem_of_app, list_elem_of_singleton. auto.
    + rewrite lookup_insert_ne by done. intros [a [? ?]]%IH.
      exists a. rewrite elem_of_app. auto.
Qed.

Lemma complaints_by_category_statistics_of (now : Z) (selected : list Complaint.t) :
  complaints_by_category (CRUDComplaint.statistics_of now selected)
  = foldl (λ d category,
             <[category_value category :=
                 len (filter (λ c, Complaint.category c = category) selected)]> d)
          ∅ all_ComplaintCategory.
Proof. reflexivity. Qed.

Lemma complaints_by_status_statistics_of (now : Z) (selected : list Complaint.t) :
  complaints_by_status (CRUDComplaint.statistics_of now selected)
  = foldl (λ d status,
             <[status_value status :=
                 len (filter (λ c, Complaint.status c = status) selected)]> d)
          ∅ all_ComplaintStatus.
Proof. reflexivity. Qed.

(** C9: when the query of [get_statistics] selects no complaint, the four
    counts are 0 and the two averages are 0; and whatever it selects, each
    breakdown dictionary has a key for every member of its enumeration (and
    no other key), holding the number of selected complaints of that member,
    hence 0 for a member without complaints. *)
Theorem get_statistics_zero_filled (now : Z) (db : Db) (university_id : Z)
    (department_id date_from date_to : option Z) :
  let selected :=
    CRUDComplaint.statistics_query db university_id department_id date_from date_to in
  let stats :=
    CRUDComplaint.get_statistics now db university_id department_id date_from date_to in
  (selected = [] →
     total_complaints stats = 0 ∧ pending_complaints stats = 0
     ∧ resolved_complaints stats = 0 ∧ overdue_complaints stats = 0
     ∧ average_resolution_time stats = 0%Q ∧ satisfaction_score stats = 0%Q)
  ∧ (∀ category,
       complaints_by_category stats !! category_value category
       = Some (len (filter (λ c, Complaint.category c = category) selected)))
  ∧ (∀ status,
       complaints_by_status stats !! status_value status
       = Some (len (filter (λ c, Complaint.status c = status) selected)))
  ∧ (∀ category, (∀ c, c ∈ selected → Complaint.category c ≠ category) →
       complaints_by_category stats !! category_value category = Some 0)
  ∧ (∀ status, (∀ c, c ∈ selected → Complaint.status c ≠ status) →
       complaints_by_status stats !! status_value status = Some 0)
  ∧ (∀ key, is_Some (complaints_by_category stats !! key) →
            ∃ category, key = category_value category)
  ∧ (∀ key, is_Some (complaints_by_status stats !! key) →
            ∃ status, key = status_value status).
Proof.
  intros selected stats.
  assert (Hcat : ∀ category,
            complaints_by_category stats !! category_value category
            = Some (len (filter (λ c, Complaint.category c = category) selected))).
  { intros category. subst stats. unfold CRUDComplaint.get_statistics.
    rewrite complaints_by_category_statistics_of.
    apply (lookup_foldl_insert category_value
             (λ category, len (filter (λ c, Complaint.category c = category) selected))).
    - apply category_value_inj.
    - apply elem_of_all_ComplaintCategory. }
  assert (Hst : ∀ status,
            complaints_by_status stats !! status_value status
            = Some (len (filter (λ c, Complaint.status c = status) selected))).
  { intros status. subst stats. unfold CRUDComplaint.get_statistics.
    rewrite complaints_by_status_statistics_of.
    apply (lookup_foldl_insert status_value
             (λ status, len (filter (λ c, Complaint.status c = status) selected))).
    - apply status_value_inj.
    - apply elem_of_all_ComplaintStatus. }
  split; [|split; [|split; [|split; [|split; [|split]]]]].
  - intros Hempty. subst stats. unfold CRUDComplaint.get_statistics.
    fold selected. rewrite Hempty. done.
  - exact Hcat.
  - exact Hst.
  - intros category Hnone. rewrite Hcat.
    replace (filter _ selected) with (@nil Complaint.t); [done|].
    symmetry. apply elem_of_nil_inv. intros c [? ?%Hnone]%list_elem_of_filter. done.
  - intros status Hnone. rewrite Hst.
    replace (filter _ selected) with (@nil Complaint.t); [done|].
    symmetry. apply elem_of_nil_inv. intros c [? ?%Hnone]%list_elem_of_filter. done.
  - intros key. subst stats. unfold CRUDComplaint.get_statistics.
    rewrite complaints_by_category_statistics_of.
    intros [category [_ <-]]%lookup_foldl_insert_is_Some. by exists category.
  - intros key. subst stats. unfold CRUDComplaint.get_statistics.
    rewrite complaints_by_status_statistics_of.
    intros [status [_ <-]]%lookup_foldl_insert_is_Some. by exists status.
Qed.

(** ** Updating a complaint *)

Lemma apply_update_id (obj_in : ComplaintUpdate.t) (c : Complaint.t) :
  Complaint.id (CRUDComplaint.apply_update obj_in c) = Complaint.id c.
Proof. done. Qed.

(** The commit of an update goes through exactly when the department the
    body names, if any, exists. *)
Lemma update_department (db : Db) (db_obj : Complaint.t) (obj_in : ComplaintUpdate.t) :
  (department_exists db (ComplaintUpdate.department_id obj_in) = true
   ∧ CRUDComplaint.update db db_obj obj_in
     = Some (set_complaints
               (update_first (λ c, bool_decide (Complaint.id c = Complaint.id db_obj))
                             (CRUDComplaint.apply_update obj_in) (complaints db)) db,
             CRUDComplaint.apply_update obj_in db_obj))
  ∨ (department_exists db (ComplaintUpdate.department_id obj_in) = false
     ∧ CRUDComplaint.update db db_obj obj_in = None).
Proof.
  unfold CRUDComplaint.update. destruct (department_exists _ _); [by left|by right].
Qed.

Lemma get_complaint_update (db db' : Db) (complaint_id : Z)
    (complaint updated : Complaint.t) (obj_in : ComplaintUpdate.t) :
  get_complaint db complaint_id = Some complaint →
  CRUDComplaint.update db complaint obj_in = Some (db', updated) →
  updated = CRUDComplaint.apply_update obj_in complaint
  ∧ get_complaint db' complaint_id = Some updated.
Proof.
  intros Hget Hupdate. destruct (get_complaint_Some _ _ _ Hget) as [Hid _].
  destruct (update_department db complaint obj_in) as [[_ Heq]|[_ Heq]];
    rewrite Heq in Hupdate; [|done].
  injection Hupdate as <- <-. split; [done|].
  unfold get_complaint in *. simpl. rewrite Hid.
  rewrite find_update_first by done. by rewrite Hget.
Qed.

(** What [update_complaint] answers once the complaint is found: the two
    refusals, or the updated row. *)
Lemma update_complaint_found (current_user : User.t) (db : Db) (complaint_id : Z)
    (complaint_update : ComplaintUpdate.t) (complaint : Complaint.t) :
  CRUDComplaint.get db complaint_id = Some complaint →
  (can_access_complaint current_user complaint = false
   ∧ routes.update_complaint current_user db complaint_id complaint_update
     = (db, HTTPException HTTP_403_FORBIDDEN "Access denied"))
  ∨ (can_access_complaint current_user complaint = true
     ∧ User.role current_user = STUDENT
     ∧ (Complaint.complainant_id complaint ≠ User.id current_user
        ∨ Complaint.status complaint = RESOLVED)
     ∧ routes.update_complaint current_user db complaint_id complaint_update
       = (db, HTTPException HTTP_403_FORBIDDEN "Cannot update this complaint"))
  ∨ (can_access_complaint current_user complaint = true
     ∧ (User.role current_user = STUDENT →
        Complaint.complainant_id complaint = User.id current_user
        ∧ Complaint.status complaint ≠ RESOLVED)
     ∧ ((department_exists db (ComplaintUpdate.department_id complaint_update) = true
         ∧ ∃ db',
             routes.update_complaint current_user db complaint_id complaint_update
             = (db', Ok (CRUDComplaint.apply_update complaint_update complaint))
             ∧ get_complaint db' complaint_id
               = Some (CRUDComplaint.apply_update complaint_update complaint))
        ∨ (department_exists db (ComplaintUpdate.department_id complaint_update)
           = false
           ∧ routes.update_complaint current_user db complaint_id complaint_update
             = (db, unhandled_exception)))).
Proof.
  intros Hget. unfold routes.update_complaint. rewrite Hget.
  destruct (can_access_complaint current_user complaint); [|by left].
  right. cbn [negb].
  destruct (bool_decide (User.role current_user = STUDENT)) eqn:Hrole;
    destruct (bool_decide (Complaint.complainant_id complaint ≠ User.id current_user))
      eqn:Hown;
    destruct (bool_decide (Complaint.status complaint = RESOLVED)) eqn:Hres;
    cbn [andb orb]; bool_decide_to_prop;
    try (left; by auto 6);
    (right; split; [done|]; split; [intros; split; [by apply dec_stable|done]|];
     destruct (update_department db complaint complaint_update)
       as [[Hdept Hupdate]|[Hdept Hupdate]];
     [left; split; [exact Hdept|];
      destruct (get_complaint_update _ _ _ _ _ _ Hget Hupdate) as [_ Hget'];
      rewrite Hupdate; eexists; split; [reflexivity|];
      destruct (ComplaintUpdate.status complaint_update),
        (ComplaintUpdate.priority complaint_update);
      repeat case_bool_decide; exact Hget'
     |right; split; [exact Hdept|]; by rewrite Hupdate]).
Qed.




(** On the resolved X: S is refused, T (staff, assigned) and A (admin) are
    accepted; on the closed X, S is accepted. *)
Example update_complaint_demo :
  routes.update_complaint student_S notified_db 1 reopen
  = (notified_db, HTTPException HTTP_403_FORBIDDEN "Cannot update this complaint")
  ∧ Complaint.status <$> complaints (routes.update_complaint staff_T notified_db 1 reopen).1
    = [SUBMITTED]
  ∧ Complaint.status <$> complaints (routes.update_complaint admin_A notified_db 1 reopen).1
    = [SUBMITTED]
  ∧ Complaint.status <$> complaints (routes.update_complaint student_S closed_db 1 reopen).1
    = [SUBMITTED].
Proof. by vm_compute. Qed.

(** ** Notifications on a status change *)

Lemma create_notification_user_ids (db : Db) (user_id : Z) (title message : string)
    (complaint_id : option Z) (notification_type : string) :
  Notification.user_id
    <$> notifications (NotificationService.create_notification db user_id title message
                         complaint_id notification_type).1
  = (Notification.user_id <$> notifications db) ++ [user_id].
Proof. simpl. by rewrite fmap_app. Qed.

(** The service's own dispatcher notifies the complainant unless they
    acted, and every assigned user but the actor, once each. *)
Lemma notify_complaint_status_change_recipients (db : Db) (complaint : Complaint.t)
    (old_status new_status : ComplaintStatus) (changed_by : User.t) :
  Notification.user_id
    <$> notifications (NotificationService.notify_complaint_status_change db complaint
                         old_status new_status changed_by)
  = (Notification.user_id <$> notifications db)
    ++ (if bool_decide (Complaint.complainant_id complaint ≠ User.id changed_by)
        then [Complaint.complainant_id complaint] else [])
    ++ filter (λ uid, uid ≠ User.id changed_by) (Complaint.assigned_to complaint).
Proof.
  unfold NotificationService.notify_complaint_status_change.
  rewrite app_assoc.
  match goal with
  | |- context [foldl ?step ?start _] =>
      assert (Hstart : Notification.user_id <$> notifications start
                = (Notification.user_id <$> notifications db)
                  ++ (if bool_decide (Complaint.complainant_id complaint
                                      ≠ User.id changed_by)
                      then [Complaint.complainant_id complaint] else []));
      [|rewrite <- Hstart; generalize start; clear Hstart]
  end.
  { case_bool_decide; [apply create_notification_user_ids|by rewrite app_nil_r]. }
  induction (Complaint.assigned_to complaint) as [|uid uids IH]; intros start;
    cbn [foldl].
  - by rewrite filter_nil, app_nil_r.
  - rewrite IH, filter_cons. case_bool_decide.
    + rewrite create_notification_user_ids, decide_True by done.
      by rewrite <- app_assoc.
    + by rewrite decide_False by tauto.
Qed.

(** The status route stores one notification, for the complainant, whoever
    acted and whoever is assigned. *)
Lemma update_complaint_status_recipients (now : Z) (current_user : User.t) (db : Db)
    (complaint_id : Z) (status_update : ComplaintStatusUpdate.t)
    (complaint : Complaint.t) :
  get_complaint db complaint_id = Some complaint →
  get_admin_user current_user = Ok current_user →
  Notification.user_id
    <$> notifications (routes.update_complaint_status now current_user db complaint_id
                         status_update).1
  = (Notification.user_id <$> notifications db) ++ [Complaint.complainant_id complaint].
Proof.
  intros Hget Hadmin. unfold routes.update_complaint_status.
  rewrite Hadmin, (update_status_Some _ _ _ _ _ _ _ Hget). simpl.
  rewrite fmap_app. do 2 f_equal.
  unfold CRUDComplaint.apply_status.
  case_bool_decide; [destruct (truthy_str _)|]; done.
Qed.

(** A status change made through [update_complaint] notifies nobody. *)
Lemma update_complaint_notifications (current_user : User.t) (db : Db)
    (complaint_id : Z) (complaint_update : ComplaintUpdate.t) :
  notifications (routes.update_complaint current_user db complaint_id
                   complaint_update).1
  = notifications db.
Proof.
  unfold routes.update_complaint.
  destruct (CRUDComplaint.get db complaint_id); [|done].
  destruct (negb _); [done|]. destruct (_ && _); [done|].
  unfold CRUDComplaint.update, CRUDActivity.log_activity.
  destruct (department_exists _ _); [|done].
  destruct (ComplaintUpdate.status complaint_update),
    (ComplaintUpdate.priority complaint_update);
    repeat case_bool_decide; reflexivity.
Qed.

(** C6 (the code at the failing inputs): when admin A moves X, filed by S
    and assigned to T, to in-progress, the status route notifies S only and
    T receives nothing, where the dispatcher of the notification service
    would notify S and T; when A moves the complaint Y that A filed, the
    route notifies A, where the dispatcher would notify T only. *)
Theorem update_complaint_status_skips_assigned :
  Notification.user_id
    <$> notifications (routes.update_complaint_status 2000 admin_A two_complaints_db 1
                         (ComplaintStatusUpdate.mk IN_PROGRESS None)).1
  = [User.id student_S]
  ∧ Notification.user_id
      <$> notifications (NotificationService.notify_complaint_status_change
                           two_complaints_db complaint_X SUBMITTED IN_PROGRESS admin_A)
    = [User.id student_S; User.id staff_T]
  ∧ Notification.user_id
      <$> notifications (routes.update_complaint_status 2000 admin_A two_complaints_db 2
                           (ComplaintStatusUpdate.mk IN_PROGRESS None)).1
    = [User.id admin_A]
  ∧ Notification.user_id
      <$> notifications (NotificationService.notify_complaint_status_change
                           two_complaints_db complaint_Y SUBMITTED IN_PROGRESS admin_A)
    = [User.id staff_T].
Proof. by vm_compute. Qed.

(** ** The activity log *)

Lemma foldl_preserves {A B : Type} (g : Db → B) (step : Db → A → Db) (l : list A)
    (db : Db) :
  (∀ db x, g (step db x) = g db) → g (foldl step db l) = g db.
Proof.
  intros Hstep. revert db. induction l as [|x l IH]; intros db; simpl; [done|].
  by rewrite IH, Hstep.
Qed.





(** The insert of an attachment always raises: the row carries no
    [uploaded_by_id]. *)
Lemma attachment_create_raises (db : Db) (original_filename file_path : string)
    (complaint_id : Z) :
  CRUDAttachment.create db original_filename file_path complaint_id = None.
Proof. reflexivity. Qed.





(** Creation, assignment, message and status update, carried out one after
    the other from the demo deployment, leave one row each, in order; the
    upload in between leaves none. *)
Example activity_log_demo :
  (λ a, (Activity.action a, Activity.complaint_id a, Activity.user_id a,
         Activity.old_value a, Activity.new_value a))
    <$> activities
          (run demo_db
             [(1100, POST_complaints 2
                       (ComplaintCreate.mk "Noisy dorm" "Loud music every night"
                          HOUSING LOW None 1));
              (1200, POST_complaints_assign 1 2 (ComplaintAssignment.mk 2 [3]));
              (1300, POST_complaints_messages 3 2 (MessageCreate.mk "On it" false 2));
              (1400, POST_complaints_upload 2 2 (UploadFile.mk "proof.PNG" 2048)
                       (Some "uploads/2/proof.png"));
              (1500, POST_complaints_status 1 2
                       (ComplaintStatusUpdate.mk RESOLVED (Some "fixed")))])
  = [("complaint_created", 2, 2, None, None);
     ("complaint_assigned", 2, 1, None, None);
     ("message_added", 2, 3, None, None);
     ("status_updated", 2, 1, Some "submitted", Some "resolved")].
Proof. by vm_compute. Qed.

(** Through [update_complaint], a change of status and priority together
    leaves one row for each, and a change of the title leaves none. *)
Example update_complaint_log_demo :
  (λ a, (Activity.action a, Activity.old_value a, Activity.new_value a))
    <$> activities (routes.update_complaint admin_A demo_db 1 escalate_urgent).1
  = [("status_changed", Some "submitted", Some "escalated");
     ("priority_changed", Some "medium", Some "urgent")]
  ∧ activities (routes.update_complaint admin_A demo_db 1 retitle).1 = []
  ∧ Complaint.title <$> complaints (routes.update_complaint admin_A demo_db 1 retitle).1
    = ["Broken heater, room 12"].
Proof. by vm_compute. Qed.

(** ** The tenant invariant is kept by every request *)

Lemma university_invariant_update_first (db db' : Db) (p : Complaint.t → bool)
    (f : Complaint.t → Complaint.t) :
  users db' = users db →
  complaints db' = update_first p f (complaints db) →
  (∀ c, Complaint.complainant_id (f c) = Complaint.complainant_id c
        ∧ Complaint.university_id (f c) = Complaint.university_id c) →
  university_invariant db → university_invariant db'.
Proof.
  intros Husers Hcomplaints Hf Hinv c. unfold get_user. rewrite Husers, Hcomplaints.
  intros [Hin|(c0 & Hin & _ & ->)]%elem_of_update_first.
  - by apply Hinv.
  - destruct (Hf c0) as [-> ->]. by apply Hinv.
Qed.

Lemma university_invariant_same (db db' : Db) :
  users db' = users db → complaints db' = complaints db →
  university_invariant db → university_invariant db'.
Proof.
  intros Husers Hcomplaints Hinv c. unfold get_user. rewrite Husers, Hcomplaints.
  apply Hinv.
Qed.

Lemma find_app_Some {A : Type} (p : A → bool) (l1 l2 : list A) (x : A) :
  find p l1 = Some x → find p (l1 ++ l2) = Some x.
Proof.
  induction l1 as [|y l1 IH]; simpl; [done|]. destruct (p y); [done|apply IH].
Qed.

Lemma get_admin_user_Ok (current_user admin : User.t) :
  get_admin_user current_user = Ok admin → admin = current_user.
Proof. unfold get_admin_user. case_bool_decide; congruence. Qed.

Lemma register_invariant (db : Db) (user_data : UserCreate.t) :
  university_invariant db → university_invariant (routes.register db user_data).1.
Proof.
  intros Hinv. unfold routes.register.
  repeat (case_bool_decide; [done|]). destruct (_ && _); [done|].
  intros c Hin. destruct (Hinv c Hin) as (u & Hu & Huni).
  exists u. split; [|done]. by apply find_app_Some.
Qed.

Lemma update_user_invariant (current_user : User.t) (db : Db) (user_id : Z)
    (user_update : UserUpdate.t) :
  university_invariant db →
  university_invariant (routes.update_user current_user db user_id user_update).1.
Proof.
  intros Hinv. unfold routes.update_user.
  destruct (get_admin_user current_user); [|done].
  destruct (get_user db user_id) as [user|]; [|done].
  destruct (_ && _); [done|].
  intros c Hin. destruct (Hinv c Hin) as (u & Hu & Huni).
  unfold get_user in *. simpl.
  destruct (find_update_first_other
              (λ u, bool_decide (User.id u = User.id user))
              (CRUDUser.apply_update user_update)
              (λ u, bool_decide (User.id u = Complaint.complainant_id c))
              (users db) u) as [Hfound|Hfound]; [done|done|..]; eauto.
Qed.

Lemma create_complaint_invariant (now : Z) (current_user : User.t) (db : Db)
    (complaint_data : ComplaintCreate.t) :
  get_user db (User.id current_user) = Some current_user →
  university_invariant db →
  university_invariant (routes.create_complaint now current_user db complaint_data).1.
Proof.
  intros Huser Hinv. unfold routes.create_complaint.
  case_bool_decide as Huni; [done|].
  unfold CRUDComplaint.create, CRUDActivity.log_activity.
  destruct (department_exists _ _); [|done]. cbn [fst snd].
  intros c. unfold get_user.
  rewrite (foldl_preserves users), (foldl_preserves complaints) by done.
  cbn [users complaints set_activities set_complaints].
  intros [Hin|Hnew]%elem_of_app; [by apply Hinv|].
  apply list_elem_of_singleton in Hnew as ->.
  exists current_user. by split.
Qed.

Lemma update_complaint_invariant (current_user : User.t) (db : Db) (complaint_id : Z)
    (complaint_update : ComplaintUpdate.t) :
  university_invariant db →
  university_invariant
    (routes.update_complaint current_user db complaint_id complaint_update).1.
Proof.
  intros Hinv. unfold routes.update_complaint.
  destruct (CRUDComplaint.get db complaint_id) as [complaint|]; [|done].
  destruct (negb _); [done|]. destruct (_ && _); [done|].
  unfold CRUDComplaint.update, CRUDActivity.log_activity.
  destruct (department_exists _ _); [|done].
  eapply (university_invariant_update_first db _ _
            (CRUDComplaint.apply_update complaint_update)); [..|done|exact Hinv];
    destruct (ComplaintUpdate.status complaint_update),
      (ComplaintUpdate.priority complaint_update);
    repeat case_bool_decide; reflexivity.
Qed.

Lemma assign_complaint_invariant (current_user : User.t) (db : Db) (complaint_id : Z)
    (assignment : ComplaintAssignment.t) :
  university_invariant db →
  university_invariant
    (routes.assign_complaint current_user db complaint_id assignment).1.
Proof.
  intros Hinv. unfold routes.assign_complaint, CRUDComplaint.get.
  destruct (get_admin_user current_user); [|done].
  destruct (get_complaint db complaint_id) as [complaint|] eqn:Hget; [|done].
  destruct (_ && _); [done|].
  rewrite (assign_users_Some _ _ _ _ Hget). cbv zeta.
  unfold CRUDActivity.log_activity. cbn [fst snd].
  eapply (university_invariant_update_first db); [..|exact Hinv].
  - by rewrite (foldl_preserves users).
  - by rewrite (foldl_preserves complaints).
  - done.
Qed.

Lemma update_complaint_status_invariant (now : Z) (current_user : User.t) (db : Db)
    (complaint_id : Z) (status_update : ComplaintStatusUpdate.t) :
  university_invariant db →
  university_invariant
    (routes.update_complaint_status now current_user db complaint_id status_update).1.
Proof.
  intros Hinv. unfold routes.update_complaint_status.
  destruct (get_admin_user current_user); [|done].
  destruct (get_complaint db complaint_id) as [complaint|] eqn:Hget.
  - rewrite (update_status_Some _ _ _ _ _ _ _ Hget).
    eapply (university_invariant_update_first db); [..|exact Hinv]; [done|done|].
    intros c. unfold CRUDComplaint.apply_status.
    case_bool_decide; [destruct (truthy_str _)|]; done.
  - by rewrite (update_status_None _ _ _ _ _ _ Hget).
Qed.

Lemma upload_file_invariant (current_user : User.t) (db : Db) (complaint_id : Z)
    (file : UploadFile.t) (saved : option string) :
  university_invariant db →
  university_invariant (routes.upload_file current_user db complaint_id file saved).1.
Proof.
  intros Hinv. unfold routes.upload_file.
  destruct (CRUDComplaint.get db complaint_id); [|done].
  destruct (negb _); [done|]. repeat (case_bool_decide; [done|]).
  destruct saved; [|done]. by apply (university_invariant_same db).
Qed.

Lemma create_message_invariant (current_user : User.t) (db : Db) (complaint_id : Z)
    (message_data : MessageCreate.t) :
  university_invariant db →
  university_invariant
    (routes.create_message current_user db complaint_id message_data).1.
Proof.
  intros Hinv. unfold routes.create_message.
  destruct (CRUDComplaint.get db complaint_id); [|done].
  destruct (negb _); [done|].
  unfold CRUDMessage.create, CRUDActivity.log_activity. cbn [fst snd].
  apply (university_invariant_same db); [..|done].
  - by rewrite (foldl_preserves users).
  - by rewrite (foldl_preserves complaints).
Qed.

Lemma mark_notification_read_invariant (current_user : User.t) (db : Db)
    (notification_id : Z) :
  university_invariant db →
  university_invariant
    (routes.mark_notification_read current_user db notification_id).1.
Proof.
  intros Hinv. unfold routes.mark_notification_read, CRUDNotification.mark_as_read.
  destruct (find _ _); [|done]. by apply (university_invariant_same db).
Qed.

Lemma get_current_active_user_Ok (db : Db) (token : Z) (current_user : User.t) :
  get_current_active_user db token = Ok current_user →
  get_user db (User.id current_user) = Some current_user.
Proof.
  unfold get_current_active_user.
  destruct (get_user db token) as [user|] eqn:Hget; [|done].
  destruct (negb _); [done|]. intros [= <-].
  by destruct (get_user_Some _ _ _ Hget) as [-> _].
Qed.

Lemma handle_invariant (now : Z) (db : Db) (request : Request) :
  university_invariant db → university_invariant (handle now db request).
Proof.
  intros Hinv.
  destruct request; simpl; unfold authenticated;
    try (destruct (get_current_active_user db token) as [current_user|] eqn:Hauth;
         [|done]).
  - by apply register_invariant.
  - by apply update_user_invariant.
  - apply create_complaint_invariant; [|done].
    by apply (get_current_active_user_Ok db token).
  - by apply update_complaint_invariant.
  - by apply assign_complaint_invariant.
  - by apply update_complaint_status_invariant.
  - by apply upload_file_invariant.
  - by apply create_message_invariant.
  - by apply mark_notification_read_invariant.
  - by apply (university_invariant_same db).
  - intros c Hin. by apply elem_of_nil in Hin.
Qed.

Lemma run_invariant (db : Db) (requests : list (Z * Request)) :
  university_invariant db → university_invariant (run db requests).
Proof.
  revert db. induction requests as [|[now request] requests IH]; intros db Hinv;
    [done|].
  apply IH. by apply handle_invariant.
Qed.

Lemma empty_db_invariant : university_invariant empty_db.
Proof. intros c Hin. by apply elem_of_nil in Hin. Qed.

Lemma demo_db_invariant : university_invariant demo_db.
Proof.
  intros c Hin. apply list_elem_of_singleton in Hin as ->.
  by exists student_S.
Qed.

(** C2: from a session that satisfies the tenant invariant and holds the
    acting user, [create_complaint] refuses a body aimed at another
    university with 403 and leaves the session as it was.  A body for the
    user's own university is stored, when the department it names, if any,
    exists, as one new complaint whose complainant is the acting user and
    whose university is that user's; when the department does not exist the
    commit fails, nothing is stored and the answer is 500.  Whatever is
    answered, and whatever requests follow, every complaint's university is
    its complainant's. *)
Theorem complaint_university_invariant (now : Z) (current_user : User.t) (db : Db)
    (complaint_data : ComplaintCreate.t) :
  university_invariant db →
  get_user db (User.id current_user) = Some current_user →
  (ComplaintCreate.university_id complaint_data ≠ User.university_id current_user →
   routes.create_complaint now current_user db complaint_data
   = (db, HTTPException HTTP_403_FORBIDDEN
            "Cannot create complaint for different university"))
  ∧ (ComplaintCreate.university_id complaint_data = User.university_id current_user →
     (department_exists db (ComplaintCreate.department_id complaint_data) = true →
      ∃ db' complaint,
        routes.create_complaint now current_user db complaint_data = (db', Ok complaint)
        ∧ complaints db' = complaints db ++ [complaint]
        ∧ Complaint.complainant_id complaint = User.id current_user
        ∧ Complaint.university_id complaint = User.university_id current_user
        ∧ get_user db' (Complaint.complainant_id complaint) = Some current_user)
     ∧ (department_exists db (ComplaintCreate.department_id complaint_data) = false →
        routes.create_complaint now current_user db complaint_data
        = (db, HTTPException HTTP_500_INTERNAL_SERVER_ERROR "Internal server error")))
  ∧ (∀ db' complaint,
       routes.create_complaint now current_user db complaint_data = (db', Ok complaint) →
       complaints db' = complaints db ++ [complaint]
       ∧ Complaint.complainant_id complaint = User.id current_user
       ∧ Complaint.university_id complaint = User.university_id current_user
       ∧ get_user db' (Complaint.complainant_id complaint) = Some current_user)
  ∧ (∀ requests,
       university_invariant
         (run (routes.create_complaint now current_user db complaint_data).1 requests)).
Proof.
  intros Hinv Huser.
  assert (Hstored : ∀ db' complaint,
            routes.create_complaint now current_user db complaint_data
            = (db', Ok complaint) →
            complaints db' = complaints db ++ [complaint]
            ∧ Complaint.complainant_id complaint = User.id current_user
            ∧ Complaint.university_id complaint = User.university_id current_user
            ∧ get_user db' (Complaint.complainant_id complaint) = Some current_user).
  { intros db' complaint. unfold routes.create_complaint.
    case_bool_decide as Huni; [done|].
    unfold CRUDComplaint.create, CRUDActivity.log_activity.
    destruct (department_exists _ _); [|done]. cbn [fst snd].
    intros [= <- <-]. unfold get_user.
    rewrite (foldl_preserves users), (foldl_preserves complaints) by done.
    by repeat split. }
  split; [|split; [|split]].
  - intros Hother. unfold routes.create_complaint.
    by rewrite (bool_decide_eq_true_2 _ Hother).
  - intros Hsame. split.
    + intros Hdept. eexists _, _. split; [|apply Hstored].
      * unfold routes.create_complaint, CRUDComplaint.create.
        rewrite bool_decide_eq_false_2 by tauto. cbn [Complaint.department_id].
        rewrite Hdept. reflexivity.
      * unfold routes.create_complaint, CRUDComplaint.create.
        rewrite bool_decide_eq_false_2 by tauto. cbn [Complaint.department_id].
        rewrite Hdept. reflexivity.
    + intros Hdept. unfold routes.create_complaint, CRUDComplaint.create.
      rewrite bool_decide_eq_false_2 by tauto. cbn [Complaint.department_id].
      by rewrite Hdept.
  - exact Hstored.
  - intros requests. by apply run_invariant, create_complaint_invariant.
Qed.

Lemma complaint_university_invariant_witness :
  (ComplaintCreate.university_id noisy_dorm ≠ User.university_id student_S →
   routes.create_complaint 1100 student_S demo_db noisy_dorm
   = (demo_db, HTTPException HTTP_403_FORBIDDEN
                 "Cannot create complaint for different university"))
  ∧ (ComplaintCreate.university_id noisy_dorm = User.university_id student_S →
     (department_exists demo_db (ComplaintCreate.department_id noisy_dorm) = true →
      ∃ db' complaint,
        routes.create_complaint 1100 student_S demo_db noisy_dorm = (db', Ok complaint)
        ∧ complaints db' = complaints demo_db ++ [complaint]
        ∧ Complaint.complainant_id complaint = User.id student_S
        ∧ Complaint.university_id complaint = User.university_id student_S
        ∧ get_user db' (Complaint.complainant_id complaint) = Some student_S)
     ∧ (department_exists demo_db (ComplaintCreate.department_id noisy_dorm) = false →
        routes.create_complaint 1100 student_S demo_db noisy_dorm
        = (demo_db,
           HTTPException HTTP_500_INTERNAL_SERVER_ERROR "Internal server error")))
  ∧ (∀ db' complaint,
       routes.create_complaint 1100 student_S demo_db noisy_dorm = (db', Ok complaint) →
       complaints db' = complaints demo_db ++ [complaint]
       ∧ Complaint.complainant_id complaint = User.id student_S
       ∧ Complaint.university_id complaint = User.university_id student_S
       ∧ get_user db' (Complaint.complainant_id complaint) = Some student_S)
  ∧ (∀ requests,
       university_invariant
         (run (routes.create_complaint 1100 student_S demo_db noisy_dorm).1 requests)).
Proof.
  apply (complaint_university_invariant 1100 student_S demo_db noisy_dorm).
  - exact demo_db_invariant.
  - reflexivity.
Defined.

(** S cannot file for university 2; filing for university 1 stores the
    complaint as submitted, logs it, and notifies A and T. *)
Example create_complaint_demo :
  routes.create_complaint 1100 student_S demo_db noisy_dorm_elsewhere
  = (demo_db, HTTPException HTTP_403_FORBIDDEN
                "Cannot create complaint for different university")
  ∧ (let db' := (routes.create_complaint 1100 student_S demo_db noisy_dorm).1 in
     (λ c, (Complaint.id c, Complaint.status c, Complaint.complainant_id c,
            Complaint.university_id c)) <$> complaints db'
     = [(1, SUBMITTED, 2, 1); (2, SUBMITTED, 2, 1)]
     ∧ Activity.action <$> activities db' = ["complaint_created"]
     ∧ Notification.user_id <$> notifications db' = [1; 3]).
Proof. by vm_compute. Qed.

(** Every session reachable from the empty one satisfies the invariant. *)
Corollary reachable_invariant (requests : list (Z * Request)) :
  university_invariant (run empty_db requests).
Proof. apply run_invariant, empty_db_invariant. Qed.

(** ** Primary keys of the user table *)

Lemma next_id_fresh (ids : list Z) (id : Z) : id ∈ ids → id < next_id ids.
Proof.
  unfold next_id. induction ids as [|x ids IH]; simpl; [by intros ?%elem_of_nil|].
  intros [->|Hin]%elem_of_cons; [lia|]. specialize (IH Hin). lia.
Qed.

Lemma update_first_keys {A B : Type} (key : A → B) (p : A → bool) (f : A → A)
    (rows : list A) :
  (∀ x, key (f x) = key x) → key <$> update_first p f rows = key <$> rows.
Proof.
  intros Hkey. induction rows as [|row rows IH]; [done|].
  cbn [update_first]. destruct (p row); rewrite !fmap_cons; [by rewrite Hkey|].
  by rewrite IH.
Qed.

Lemma handle_user_keys (now : Z) (db : Db) (request : Request) :
  NoDup (User.id <$> users db) → NoDup (User.id <$> users (handle now db request)).
Proof.
  intros Hkeys.
  destruct request; simpl; unfold authenticated;
    try (destruct (get_current_active_user db token) as [current_user|]; [|done]).
  - unfold routes.register.
    repeat (case_bool_decide; [done|]). destruct (_ && _); [done|].
    simpl. rewrite fmap_app. apply NoDup_app. split; [done|]. split.
    + intros id Hin Hnew. apply list_elem_of_singleton in Hnew. simpl in Hnew.
      apply next_id_fresh in Hin. lia.
    + apply NoDup_singleton.
  - unfold routes.update_user.
    destruct (get_admin_user current_user); [|done].
    destruct (get_user db user_id); [|done]. destruct (_ && _); [done|].
    simpl. by rewrite update_first_keys.
  - unfold routes.create_complaint. case_bool_decide; [done|].
    unfold CRUDComplaint.create, CRUDActivity.log_activity.
    destruct (department_exists _ _); [|done]. cbn [fst snd].
    by rewrite (foldl_preserves users).
  - unfold routes.update_complaint.
    destruct (CRUDComplaint.get db complaint_id); [|done].
    destruct (negb _); [done|]. destruct (_ && _); [done|].
    unfold CRUDComplaint.update, CRUDActivity.log_activity.
    destruct (department_exists _ _); [|done].
    destruct (ComplaintUpdate.status complaint_update),
      (ComplaintUpdate.priority complaint_update);
      repeat case_bool_decide; done.
  - unfold routes.assign_complaint, CRUDComplaint.get.
    destruct (get_admin_user current_user); [|done].
    destruct (get_complaint db complaint_id) eqn:Hget; [|done].
    destruct (_ && _); [done|].
    rewrite (assign_users_Some _ _ _ _ Hget). cbv zeta.
    unfold CRUDActivity.log_activity. cbn [fst snd].
    by rewrite (foldl_preserves users).
  - unfold routes.update_complaint_status.
    destruct (get_admin_user current_user); [|done].
    destruct (get_complaint db complaint_id) eqn:Hget.
    + by rewrite (update_status_Some _ _ _ _ _ _ _ Hget).
    + by rewrite (update_status_None _ _ _ _ _ _ Hget).
  - unfold routes.upload_file.
    destruct (CRUDComplaint.get db complaint_id); [|done].
    destruct (negb _); [done|]. repeat (case_bool_decide; [done|]).
    by destruct saved.
  - unfold routes.create_message.
    destruct (CRUDComplaint.get db complaint_id); [|done].
    destruct (negb _); [done|].
    unfold CRUDMessage.create, CRUDActivity.log_activity. cbn [fst snd].
    by rewrite (foldl_preserves users).
  - unfold routes.mark_notification_read, CRUDNotification.mark_as_read.
    by destruct (find _ _).
  - done.
  - vm_compute. repeat constructor; rewrite ?elem_of_cons, ?elem_of_nil; lia.
Qed.

(** In every reachable session the user ids are pairwise distinct. *)
Lemma reachable_user_keys (requests : list (Z * Request)) :
  NoDup (User.id <$> users (run empty_db requests)).
Proof.
  assert (Hrun : ∀ db, NoDup (User.id <$> users db) →
                       NoDup (User.id <$> users (run db requests))).
  { induction requests as [|[now request] requests IH]; intros db Hkeys; [done|].
    apply IH. by apply handle_user_keys. }
  apply Hrun. constructor.
Qed.

(** ** Further scenarios *)

(** T, staff, reads the internal note only when asking for it; B, admin of
    another university, is refused. *)
Example get_messages_demo :
  routes.get_messages staff_T chat_db 1 true = Ok (messages chat_db)
  ∧ routes.get_messages staff_T chat_db 1 false = Ok (take 1 (messages chat_db))
  ∧ Message.is_internal <$> messages chat_db = [false; true]
  ∧ routes.get_messages admin_B chat_db 1 true
    = HTTPException HTTP_403_FORBIDDEN "Access denied".
Proof. by vm_compute. Qed.

(** * Further properties of the handlers *)

(** ** Tenant isolation of the complaint routes *)

Lemma same_university_required_fails (current_user : User.t) (university_id : Z) :
  same_university_required current_user university_id ≠ Ok true →
  User.role current_user ≠ SUPER_ADMIN
  ∧ User.university_id current_user ≠ university_id.
Proof.
  unfold same_university_required.
  repeat case_bool_decide; simpl; intros Hfails; try done; by destruct Hfails.
Qed.

(** X1: when the tenant check [same_university_required] refuses a user for
    the university of an existing complaint, every route that is guarded by
    [can_access_complaint], and the assignment route, answers 403 and leaves
    the session as it was. *)
Theorem cross_tenant_requests_refused (current_user : User.t) (db : Db)
    (complaint_id : Z) (complaint : Complaint.t) :
  get_complaint db complaint_id = Some complaint →
  same_university_required current_user (Complaint.university_id complaint) ≠ Ok true →
  routes.get_complaint current_user db complaint_id
  = HTTPException HTTP_403_FORBIDDEN "Access denied"
  ∧ (∀ complaint_update,
       routes.update_complaint current_user db complaint_id complaint_update
       = (db, HTTPException HTTP_403_FORBIDDEN "Access denied"))
  ∧ (∀ file saved,
       routes.upload_file current_user db complaint_id file saved
       = (db, HTTPException HTTP_403_FORBIDDEN "Access denied"))
  ∧ (∀ message_data,
       routes.create_message current_user db complaint_id message_data
       = (db, HTTPException HTTP_403_FORBIDDEN "Access denied"))
  ∧ (∀ include_internal,
       routes.get_messages current_user db complaint_id include_internal
       = HTTPException HTTP_403_FORBIDDEN "Access denied")
  ∧ (∀ assignment, ∃ detail,
       routes.assign_complaint current_user db complaint_id assignment
       = (db, HTTPException HTTP_403_FORBIDDEN detail)).
Proof.
  intros Hget [Hrole Huni]%same_university_required_fails.
  assert (Hacc : can_access_complaint current_user complaint = false).
  { unfold can_access_complaint.
    rewrite (bool_decide_eq_false_2 _ Hrole). by rewrite (bool_decide_eq_true_2 _ Huni). }
  unfold routes.get_complaint, routes.update_complaint, routes.upload_file,
    routes.create_message, routes.get_messages, routes.assign_complaint,
    CRUDComplaint.get.
  rewrite Hget, Hacc. simpl. repeat (split; [done|]).
  intros assignment. unfold get_admin_user. case_bool_decide; [by eauto|].
  rewrite (bool_decide_eq_true_2 _ Hrole), bool_decide_eq_true_2 by congruence.
  by eauto.
Qed.

Lemma cross_tenant_requests_refused_witness :
  routes.get_complaint admin_B demo_db 1
  = HTTPException HTTP_403_FORBIDDEN "Access denied"
  ∧ (∀ complaint_update,
       routes.update_complaint admin_B demo_db 1 complaint_update
       = (demo_db, HTTPException HTTP_403_FORBIDDEN "Access denied"))
  ∧ (∀ file saved,
       routes.upload_file admin_B demo_db 1 file saved
       = (demo_db, HTTPException HTTP_403_FORBIDDEN "Access denied"))
  ∧ (∀ message_data,
       routes.create_message admin_B demo_db 1 message_data
       = (demo_db, HTTPException HTTP_403_FORBIDDEN "Access denied"))
  ∧ (∀ include_internal,
       routes.get_messages admin_B demo_db 1 include_internal
       = HTTPException HTTP_403_FORBIDDEN "Access denied")
  ∧ (∀ assignment, ∃ detail,
       routes.assign_complaint admin_B demo_db 1 assignment
       = (demo_db, HTTPException HTTP_403_FORBIDDEN detail)).
Proof.
  apply (cross_tenant_requests_refused admin_B demo_db 1 complaint_X).
  - reflexivity.
  - vm_compute. discriminate.
Defined.

(** X2: the status route makes no tenant check: an admin or staff member of
    any university changes the status of any existing complaint, also one of
    a university for which [same_university_required] refuses them. *)
Theorem update_complaint_status_ignores_tenant (now : Z) (current_user : User.t)
    (db : Db) (complaint_id : Z) (status_update : ComplaintStatusUpdate.t)
    (complaint : Complaint.t) :
  get_complaint db complaint_id = Some complaint →
  get_admin_user current_user = Ok current_user →
  same_university_required current_user (Complaint.university_id complaint) ≠ Ok true →
  ∃ db' complaint',
    routes.update_complaint_status now current_user db complaint_id status_update
    = (db', Ok "Status updated successfully")
    ∧ get_complaint db' complaint_id = Some complaint'
    ∧ Complaint.status complaint' = ComplaintStatusUpdate.status status_update
    ∧ Complaint.university_id complaint' = Complaint.university_id complaint
    ∧ Complaint.university_id complaint' ≠ User.university_id current_user.
Proof.
  intros Hget Hadmin [_ Huni]%same_university_required_fails.
  unfold routes.update_complaint_status.
  rewrite Hadmin, (update_status_Some _ _ _ _ _ _ _ Hget).
  eexists _, _. split; [reflexivity|]. split.
  { unfold get_complaint in *. simpl.
    rewrite find_update_first by (intros; by rewrite apply_status_id).
    by rewrite Hget. }
  unfold CRUDComplaint.apply_status.
  case_bool_decide; [destruct (truthy_str _)|]; simpl; repeat split; congruence.
Qed.

Lemma update_complaint_status_ignores_tenant_witness :
  ∃ db' complaint',
    routes.update_complaint_status 2000 admin_B demo_db 1
      (ComplaintStatusUpdate.mk CLOSED None)
    = (db', Ok "Status updated successfully")
    ∧ get_complaint db' 1 = Some complaint'
    ∧ Complaint.status complaint' = CLOSED
    ∧ Complaint.university_id complaint' = Complaint.university_id complaint_X
    ∧ Complaint.university_id complaint' ≠ User.university_id admin_B.
Proof.
  apply (update_complaint_status_ignores_tenant 2000 admin_B demo_db 1
           (ComplaintStatusUpdate.mk CLOSED None) complaint_X).
  - reflexivity.
  - reflexivity.
  - vm_compute. discriminate.
Defined.

(** ** Registration and the user directory *)







(** The newcomer is registered under id 5; a second registration with the
    same e-mail is refused. *)
Example register_demo :
  (routes.register demo_db newcomer).2 = Ok 5
  ∧ routes.register (routes.register demo_db newcomer).1 newcomer
    = ((routes.register demo_db newcomer).1,
       HTTPException HTTP_400_BAD_REQUEST "Email already registered").
Proof. by vm_compute. Qed.



(** X5: the user directory is cut by tenant for admins and staff: the list
    holds at most [limit] users, all of the caller's university, and a
    single user is returned only if of the caller's university and refused
    with 403 otherwise.  A student is refused, a super admin reads the
    table across universities. *)
Theorem user_directory_tenant_isolation (current_user : User.t) (db : Db)
    (skip limit : nat) :
  (User.role current_user = STUDENT →
   routes.get_users current_user db skip limit
   = HTTPException HTTP_403_FORBIDDEN "Admin privileges required"
   ∧ ∀ user_id,
       routes.get_user current_user db user_id
       = HTTPException HTTP_403_FORBIDDEN "Admin privileges required")
  ∧ (User.role current_user = ADMIN ∨ User.role current_user = STAFF →
     (∃ items,
        routes.get_users current_user db skip limit = Ok items
        ∧ (length items ≤ limit)%nat
        ∧ ∀ user, user ∈ items →
            user ∈ users db
            ∧ User.university_id user = User.university_id current_user)
     ∧ ∀ user_id user,
         get_user db user_id = Some user →
         routes.get_user current_user db user_id
         = if bool_decide (User.university_id user = User.university_id current_user)
           then Ok user
           else HTTPException HTTP_403_FORBIDDEN "Access denied")
  ∧ (User.role current_user = SUPER_ADMIN →
     routes.get_users current_user db skip limit = Ok (take limit (drop skip (users db)))
     ∧ ∀ user_id user,
         get_user db user_id = Some user →
         routes.get_user current_user db user_id = Ok user).
Proof.
  unfold routes.get_users, routes.get_user, get_admin_user.
  split; [|split].
  - intros Hr. rewrite bool_decide_eq_true_2; [done|].
    rewrite Hr, !elem_of_cons, elem_of_nil. intuition congruence.
  - intros Hrole.
    rewrite bool_decide_eq_false_2 by (rewrite !elem_of_cons; tauto).
    rewrite !(bool_decide_eq_false_2 (_ = SUPER_ADMIN)) by (destruct Hrole; congruence).
    split.
    + eexists. split; [reflexivity|]. unfold CRUDUser.get_by_university. split.
      * rewrite length_take. lia.
      * intros user Hin%subseteq_take%subseteq_drop.
        by apply list_elem_of_filter in Hin as [? ?].
    + intros user_id user ->.
      rewrite (bool_decide_eq_true_2 (_ ≠ SUPER_ADMIN)) by (destruct Hrole; congruence).
      simpl. by repeat case_bool_decide.
  - intros Hr.
    rewrite bool_decide_eq_false_2 by (rewrite Hr, !elem_of_cons; tauto).
    rewrite (bool_decide_eq_true_2 _ Hr). split; [done|].
    intros user_id user ->. by rewrite bool_decide_eq_false_2 by tauto.
Qed.

(** ** Consistency of the dashboard figures *)










(** X7: the dashboard of a university does not depend on the complaints
    of the others: appending complaints of other universities to the table
    leaves [get_statistics] as it was. *)
Theorem get_statistics_ignores_other_universities (now : Z) (db : Db)
    (university_id : Z) (department_id date_from date_to : option Z)
    (others : list Complaint.t) :
  (∀ c, c ∈ others → Complaint.university_id c ≠ university_id) →
  CRUDComplaint.get_statistics now (set_complaints (complaints db ++ others) db)
    university_id department_id date_from date_to
  = CRUDComplaint.get_statistics now db university_id department_id date_from date_to.
Proof.
  intros Hothers.
  unfold CRUDComplaint.get_statistics, CRUDComplaint.statistics_query. simpl.
  rewrite filter_app.
  replace (filter _ others) with (@nil Complaint.t); [by rewrite app_nil_r|].
  symmetry. apply elem_of_nil_inv.
  intros c [? ?%Hothers]%list_elem_of_filter. done.
Qed.

Lemma get_statistics_ignores_other_universities_witness :
  CRUDComplaint.get_statistics 2000
    (set_complaints (complaints demo_db ++ [complaint_X]) demo_db) 2 None None None
  = CRUDComplaint.get_statistics 2000 demo_db 2 None None None.
Proof.
  apply (get_statistics_ignores_other_universities 2000 demo_db 2 None None None
           [complaint_X]).
  intros c Hin. apply list_elem_of_singleton in Hin as ->. discriminate.
Defined.


(** ** Who is notified *)

(** A loop whose every step appends to one column and keeps another. *)
Lemma foldl_appends {A B C : Type} (g : Db → list B) (h : Db → C)
    (step : Db → A → Db) (r : C → A → list B) (l : list A) (db : Db) :
  (∀ db x, h (step db x) = h db ∧ g (step db x) = g db ++ r (h db) x) →
  h (foldl step db l) = h db ∧ g (foldl step db l) = g db ++ (l ≫= r (h db)).
Proof.
  intros Hstep. revert db. induction l as [|x l IH]; intros db; simpl.
  - by rewrite app_nil_r.
  - destruct (Hstep db x) as [Hh Hg]. destruct (IH (step db x)) as [-> ->].
    rewrite Hh, Hg, <- app_assoc. done.
Qed.

Lemma bind_singleton_fmap {A B : Type} (f : A → B) (l : list A) :
  l ≫= (λ x, [f x]) = f <$> l.
Proof. induction l as [|x l IH]; [done|]. by rewrite bind_cons, IH. Qed.

(** Everything but the notification table. *)
Lemma create_notification_rest (db : Db) (user_id : Z) (title message : string)
    (complaint_id : option Z) (notification_type : string) :
  set_notifications []
    (NotificationService.create_notification db user_id title message complaint_id
       notification_type).1
  = set_notifications [] db.
Proof. done. Qed.

(** X9: [notify_complaint_status_change] changes the notification table
    only, and the users it notifies are the complainant and the assigned
    users, the acting user left out: the actor is never notified, and nobody
    is notified twice when the assigned users are distinct and the
    complainant is not among them. *)
Theorem notify_complaint_status_change_never_actor (db : Db) (complaint : Complaint.t)
    (old_status new_status : ComplaintStatus) (changed_by : User.t) :
  ∃ recipients,
    Notification.user_id
      <$> notifications (NotificationService.notify_complaint_status_change db
                           complaint old_status new_status changed_by)
    = (Notification.user_id <$> notifications db) ++ recipients
    ∧ set_notifications []
        (NotificationService.notify_complaint_status_change db complaint old_status
           new_status changed_by)
      = set_notifications [] db
    ∧ (User.id changed_by ∉ recipients)
    ∧ (∀ uid, uid ∈ recipients
              ↔ uid ≠ User.id changed_by
                ∧ (uid = Complaint.complainant_id complaint
                   ∨ uid ∈ Complaint.assigned_to complaint))
    ∧ (NoDup (Complaint.assigned_to complaint) →
       (Complaint.complainant_id complaint ∉ Complaint.assigned_to complaint) →
       NoDup recipients).
Proof.
  eexists. split; [apply notify_complaint_status_change_recipients|].
  assert (Hin : ∀ uid,
            uid ∈ (if bool_decide (Complaint.complainant_id complaint
                                   ≠ User.id changed_by)
                   then [Complaint.complainant_id complaint] else [])
                  ++ filter (λ uid, uid ≠ User.id changed_by)
                       (Complaint.assigned_to complaint)
            ↔ uid ≠ User.id changed_by
              ∧ (uid = Complaint.complainant_id complaint
                 ∨ uid ∈ Complaint.assigned_to complaint)).
  { intros uid. rewrite elem_of_app, list_elem_of_filter.
    case_bool_decide;
      rewrite ?list_elem_of_singleton, ?elem_of_nil; intuition congruence. }
  split; [|split; [|split]].
  - unfold NotificationService.notify_complaint_status_change.
    rewrite (foldl_preserves (set_notifications [])).
    + by destruct (bool_decide (Complaint.complainant_id complaint ≠ _)).
    + intros db0 uid. cbv beta. by destruct (bool_decide (uid ≠ _)).
  - rewrite Hin. tauto.
  - exact Hin.
  - intros Hnodup Hnotin. apply NoDup_app. split; [|split].
    + case_bool_decide; [apply NoDup_singleton|constructor].
    + intros uid Huid [_ ?]%list_elem_of_filter.
      case_bool_decide; [|by apply elem_of_nil in Huid].
      apply list_elem_of_singleton in Huid. congruence.
    + by apply NoDup_filter.
Qed.

(** X10: on creation of a complaint, for an existing department if one is
    named, the users notified are exactly the
    admins and staff of the acting user's university, in table order, the
    creator included when of that kind; students, super admins and users of
    other universities are not notified. *)
Theorem create_complaint_notifies_staff (now : Z) (current_user : User.t)
    (db db' : Db) (complaint_data : ComplaintCreate.t) (complaint : Complaint.t) :
  (∀ d, ComplaintCreate.department_id complaint_data = Some d → d ∈ departments db) →
  routes.create_complaint now current_user db complaint_data = (db', Ok complaint) →
  ∃ recipients,
    Notification.user_id <$> notifications db'
    = (Notification.user_id <$> notifications db) ++ recipients
    ∧ recipients
      = User.id
          <$> filter (λ u, User.university_id u = Complaint.university_id complaint
                           ∧ User.role u ∈ [ADMIN; STAFF])
                     (users db)
    ∧ (∀ uid, uid ∈ recipients →
         ∃ u, u ∈ users db ∧ User.id u = uid
              ∧ User.university_id u = User.university_id current_user
              ∧ (User.role u = ADMIN ∨ User.role u = STAFF)).
Proof.
  intros _.
  unfold routes.create_complaint. case_bool_decide as Huni; [done|].
  unfold CRUDComplaint.create, CRUDActivity.log_activity.
  destruct (department_exists _ _); [|done]. cbn [fst snd].
  intros [= <- <-]. eexists. split; [|split; [reflexivity|]].
  - match goal with
    | |- context [foldl ?step ?start ?l] =>
        destruct (foldl_appends (λ db, Notification.user_id <$> notifications db)
                    (λ _, tt) step (λ _ admin, [User.id admin]) l start) as [_ ->]
    end.
    + intros db0 admin. split; [done|]. apply create_notification_user_ids.
    + rewrite (bind_singleton_fmap User.id).
      unfold CRUDUser.get_admins_by_university. simpl. by rewrite Huni.
  - simpl. intros uid (u & -> & [[Hu Hr] Hin]%list_elem_of_filter)%list_elem_of_fmap.
    exists u. rewrite !elem_of_cons, elem_of_nil in Hr.
    repeat split; [done|congruence|tauto].
Qed.

Lemma create_complaint_notifies_staff_witness :
  ∃ recipients,
    Notification.user_id
      <$> notifications (routes.create_complaint 1100 student_S demo_db noisy_dorm).1
    = (Notification.user_id <$> notifications demo_db) ++ recipients
    ∧ recipients
      = User.id
          <$> filter (λ u, User.university_id u
                           = Complaint.university_id
                               (Complaint.mk 2 "Noisy dorm" "Loud music every night"
                                  HOUSING LOW SUBMITTED 2 1 None None None None
                                  (Some 1100) None None [])
                           ∧ User.role u ∈ [ADMIN; STAFF])
                     (users demo_db)
    ∧ (∀ uid, uid ∈ recipients →
         ∃ u, u ∈ users demo_db ∧ User.id u = uid
              ∧ User.university_id u = User.university_id student_S
              ∧ (User.role u = ADMIN ∨ User.role u = STAFF)).
Proof.
  apply (create_complaint_notifies_staff 1100 student_S demo_db _ noisy_dorm).
  - intros d Hd. discriminate Hd.
  - reflexivity.
Defined.

(** X11: an assignment whose listed ids all belong to users stores one
    notification per listed id, in the order of the list, repetitions
    included: a user listed twice is assigned once and notified twice. *)
Theorem assign_complaint_notifies_each_listed (current_user : User.t) (db db' : Db)
    (complaint_id : Z) (assignment : ComplaintAssignment.t) (response : string) :
  (∀ uid, uid ∈ ComplaintAssignment.assigned_to_ids assignment →
          is_Some (get_user db uid)) →
  routes.assign_complaint current_user db complaint_id assignment = (db', Ok response) →
  Notification.user_id <$> notifications db'
  = (Notification.user_id <$> notifications db)
    ++ ComplaintAssignment.assigned_to_ids assignment
  ∧ ∃ complaint',
      get_complaint db' complaint_id = Some complaint'
      ∧ (∀ uid, uid ∈ Complaint.assigned_to complaint'
                ↔ uid ∈ ComplaintAssignment.assigned_to_ids assignment)
      ∧ (NoDup (User.id <$> users db) → NoDup (Complaint.assigned_to complaint')).
Proof.
  intros Hexist. unfold routes.assign_complaint, CRUDComplaint.get.
  destruct (get_admin_user current_user) as [admin|] eqn:Hadmin; [|done].
  destruct (get_complaint db complaint_id) as [complaint|] eqn:Hget; [|done].
  destruct (_ && _); [done|].
  rewrite (assign_users_Some _ _ _ _ Hget). cbv zeta.
  unfold CRUDActivity.log_activity. cbn [fst snd]. intros [= <- _]. split.
  - match goal with
    | |- context [foldl ?step ?start ?l] =>
        destruct (foldl_appends (λ db, Notification.user_id <$> notifications db)
                    (λ _, tt) step (λ _ uid, [uid]) l start) as [_ ->]
    end.
    + intros db0 uid. split; [done|]. apply create_notification_user_ids.
    + rewrite (bind_singleton_fmap id), list_fmap_id. done.
  - eexists. split; [|split].
    + unfold get_complaint in *. rewrite (foldl_preserves complaints) by done.
      simpl. rewrite find_update_first by done. by rewrite Hget.
    + intros uid. simpl. rewrite list_elem_of_fmap.
      setoid_rewrite list_elem_of_filter. split.
      * by intros (u & -> & ? & ?).
      * intros Hin. destruct (Hexist uid Hin) as [u Hu].
        apply get_user_Some in Hu as [<- Hu]. by exists u.
    + intros Hkeys. simpl.
      eapply sublist_NoDup; [exact Hkeys|]. apply fmap_sublist, sublist_filter.
Qed.

Lemma assign_complaint_notifies_each_listed_witness :
  Notification.user_id
    <$> notifications (routes.assign_complaint admin_A demo_db 1
                         (ComplaintAssignment.mk 1 [3; 1; 3])).1
  = (Notification.user_id <$> notifications demo_db) ++ [3; 1; 3]
  ∧ ∃ complaint',
      get_complaint (routes.assign_complaint admin_A demo_db 1
                       (ComplaintAssignment.mk 1 [3; 1; 3])).1 1
      = Some complaint'
      ∧ (∀ uid, uid ∈ Complaint.assigned_to complaint' ↔ uid ∈ [3; 1; 3])
      ∧ (NoDup (User.id <$> users demo_db) → NoDup (Complaint.assigned_to complaint')).
Proof.
  apply (assign_complaint_notifies_each_listed admin_A demo_db _ 1
           (ComplaintAssignment.mk 1 [3; 1; 3]) "Complaint assigned successfully").
  - intros uid Hin. simpl in Hin.
    repeat (apply elem_of_cons in Hin as [->|Hin]; [by eexists|]).
    by apply elem_of_nil in Hin.
  - reflexivity.
Defined.

(** The set built by successive [add]s. *)
Lemma foldl_add_spec (acc l : list Z) :
  NoDup acc →
  NoDup (foldl (λ (notify_users : list Z) (user_id : Z),
                  if bool_decide (user_id ∈ notify_users) then notify_users
                  else notify_users ++ [user_id]) acc l)
  ∧ ∀ uid,
      uid ∈ foldl (λ (notify_users : list Z) (user_id : Z),
                     if bool_decide (user_id ∈ notify_users) then notify_users
                     else notify_users ++ [user_id]) acc l
      ↔ uid ∈ acc ∨ uid ∈ l.
Proof.
  revert acc. induction l as [|x l IH]; intros acc Hacc; simpl.
  - split; [done|]. intros uid. rewrite elem_of_nil. tauto.
  - case_bool_decide as Hx.
    + destruct (IH acc Hacc) as [Hnd Hin]. split; [done|].
      intros uid. rewrite Hin, elem_of_cons. split; [tauto|].
      intros [?|[->|?]]; tauto.
    + destruct (IH (acc ++ [x])) as [Hnd Hin].
      { apply NoDup_app. split; [done|]. split; [|apply NoDup_singleton].
        intros y Hy Hyx. apply list_elem_of_singleton in Hyx. congruence. }
      split; [done|]. intros uid.
      rewrite Hin, elem_of_app, list_elem_of_singleton, elem_of_cons. tauto.
Qed.

(** X12: a message posted on an existing complaint notifies the complainant
    and the assigned users, the sender left out, each of them exactly once;
    [notify_new_message] of the notification service, which the route does
    not call, would notify the same users. *)
Theorem create_message_recipients (current_user : User.t) (db db' : Db)
    (complaint_id : Z) (message_data : MessageCreate.t) (message : Message.t)
    (complaint : Complaint.t) :
  get_complaint db complaint_id = Some complaint →
  is_Some (get_complaint db (MessageCreate.complaint_id message_data)) →
  routes.create_message current_user db complaint_id message_data = (db', Ok message) →
  ∃ recipients recipients',
    Notification.user_id <$> notifications db'
    = (Notification.user_id <$> notifications db) ++ recipients
    ∧ NoDup recipients
    ∧ (∀ uid, uid ∈ recipients
              ↔ uid ≠ User.id current_user
                ∧ (uid = Complaint.complainant_id complaint
                   ∨ uid ∈ Complaint.assigned_to complaint))
    ∧ Notification.user_id
        <$> notifications (NotificationService.notify_new_message db complaint
                             current_user (MessageCreate.content message_data))
      = (Notification.user_id <$> notifications db) ++ recipients'
    ∧ recipients ≡ₚ recipients'.
Proof.
  intros Hget _. unfold routes.create_message, CRUDComplaint.get. rewrite Hget.
  destruct (negb _); [done|].
  unfold CRUDMessage.create, CRUDActivity.log_activity. cbn [fst snd].
  intros [= <- _].
  unfold NotificationService.notify_new_message. cbv zeta.
  repeat match goal with
  | |- context [notifications (foldl ?step ?start ?l)] =>
      let Heq := fresh "Heq" in
      destruct (foldl_appends (λ db, Notification.user_id <$> notifications db)
                  (λ _, tt) step (λ _ uid, [uid]) l start) as [_ Heq];
      [intros db0 uid; split; [done|]; apply create_notification_user_ids|];
      rewrite Heq; clear Heq
  end.
  rewrite !(bind_singleton_fmap id), !list_fmap_id.
  eexists _, _. split; [reflexivity|].
  assert (Hroute : ∀ uid,
            uid ∈ filter (λ uid, uid ≠ User.id current_user)
                    (remove_dups (Complaint.complainant_id complaint
                                  :: Complaint.assigned_to complaint))
            ↔ uid ≠ User.id current_user
              ∧ (uid = Complaint.complainant_id complaint
                 ∨ uid ∈ Complaint.assigned_to complaint)).
  { intros uid. by rewrite list_elem_of_filter, elem_of_remove_dups, elem_of_cons. }
  assert (Hstart : (if bool_decide (Complaint.complainant_id complaint ∈ @nil Z)
                    then [] else [] ++ [Complaint.complainant_id complaint])
                   = [Complaint.complainant_id complaint]) by reflexivity.
  rewrite Hstart. clear Hstart.
  destruct (foldl_add_spec [Complaint.complainant_id complaint]
              (Complaint.assigned_to complaint)) as [Hnd Hin];
    [apply NoDup_singleton|].
  pose proof (NoDup_remove_dups (Complaint.complainant_id complaint
                                :: Complaint.assigned_to complaint)) as Hnd'.
  split; [apply NoDup_filter; exact Hnd'|]. split; [exact Hroute|].
  split; [reflexivity|].
  apply NoDup_Permutation.
  - apply NoDup_filter; exact Hnd'.
  - by apply NoDup_filter.
  - intros uid. rewrite Hroute, list_elem_of_filter, Hin, list_elem_of_singleton. done.
Qed.

Lemma create_message_recipients_witness :
  ∃ recipients recipients',
    Notification.user_id
      <$> notifications (routes.create_message staff_T two_complaints_db 2
                           (MessageCreate.mk "On it" false 2)).1
    = (Notification.user_id <$> notifications two_complaints_db) ++ recipients
    ∧ NoDup recipients
    ∧ (∀ uid, uid ∈ recipients
              ↔ uid ≠ User.id staff_T
                ∧ (uid = Complaint.complainant_id complaint_Y
                   ∨ uid ∈ Complaint.assigned_to complaint_Y))
    ∧ Notification.user_id
        <$> notifications (NotificationService.notify_new_message two_complaints_db
                             complaint_Y staff_T
                             (MessageCreate.content (MessageCreate.mk "On it" false 2)))
      = (Notification.user_id <$> notifications two_complaints_db) ++ recipients'
    ∧ recipients ≡ₚ recipients'.
Proof.
  eapply (create_message_recipients staff_T two_complaints_db _ 2
            (MessageCreate.mk "On it" false 2) _ complaint_Y).
  - reflexivity.
  - eexists. reflexivity.
  - reflexivity.
Defined.

Lemma create_notification_key (db : Db) (user_id : Z) (title message : string)
    (complaint_id : option Z) (notification_type : string) :
  users (NotificationService.create_notification db user_id title message complaint_id
           notification_type).1 = users db
  ∧ notification_key
      <$> notifications (NotificationService.create_notification db user_id title
                           message complaint_id notification_type).1
    = (notification_key <$> notifications db)
      ++ [(user_id, complaint_id, notification_type)].
Proof. split; [done|]. simpl. by rewrite fmap_app. Qed.

(** X13: the overdue sweep adds, for every complaint whose due date has
    passed and which is neither resolved nor closed, one alert per assigned
    user, or, when nobody is assigned, one alert per admin or staff member of
    the complaint's university; complaints without a due date, resolved or
    closed ones get none, and no other table changes. *)
Theorem notify_overdue_complaints_alerts (now : Z) (db : Db) :
  let overdue :=
    filter (λ c, due_before now c ∧ Complaint.status c ∉ [RESOLVED; CLOSED])
           (complaints db) in
  let recipients (c : Complaint.t) :=
    if bool_decide (Complaint.assigned_to c = [])
    then User.id <$> CRUDUser.get_admins_by_university db (Complaint.university_id c)
    else Complaint.assigned_to c in
  notification_key <$> notifications (NotificationService.notify_overdue_complaints now db)
  = (notification_key <$> notifications db)
    ++ (overdue ≫= λ c, (λ uid, (uid, Some (Complaint.id c), "alert")) <$> recipients c)
  ∧ set_notifications [] (NotificationService.notify_overdue_complaints now db)
    = set_notifications [] db.
Proof.
  intros overdue recipients. unfold NotificationService.notify_overdue_complaints.
  fold overdue. split.
  - match goal with |- context [foldl ?step db overdue] =>
      destruct (foldl_appends (λ db, notification_key <$> notifications db) users step
                  (λ us c, (λ uid, (uid, Some (Complaint.id c), "alert"))
                           <$> (if bool_decide (Complaint.assigned_to c = [])
                                then User.id
                                       <$> filter (λ u, User.university_id u
                                                        = Complaint.university_id c
                                                        ∧ User.role u ∈ [ADMIN; STAFF]) us
                                else Complaint.assigned_to c))
                  overdue db) as [_ Heq]
    end; [|exact Heq].
    intros db0 c. cbv zeta.
    match goal with |- context [foldl ?step db0 (Complaint.assigned_to c)] =>
      destruct (foldl_appends (λ db, notification_key <$> notifications db) users step
                  (λ _ uid, [(uid, Some (Complaint.id c), "alert")])
                  (Complaint.assigned_to c) db0) as [Hu1 Hn1];
        [intros db1 uid; apply create_notification_key|]
    end.
    rewrite bind_singleton_fmap in Hn1.
    case_bool_decide as Hassigned; [|by split].
    unfold CRUDUser.get_admins_by_university.
    match goal with |- context [foldl ?step ?start (filter ?P (users ?start))] =>
      destruct (foldl_appends (λ db, notification_key <$> notifications db) users step
                  (λ _ admin, [(User.id admin, Some (Complaint.id c), "alert")])
                  (filter P (users start)) start) as [Hu2 Hn2];
        [intros db1 admin; apply create_notification_key|]
    end.
    rewrite bind_singleton_fmap in Hn2.
    rewrite Hu2, Hn2, Hu1, Hn1, Hassigned. split; [done|].
    simpl. rewrite app_nil_r. by rewrite <- list_fmap_compose.
  - apply (foldl_preserves (set_notifications [])). intros db0 c. cbv zeta.
    case_bool_decide;
      rewrite ?(foldl_preserves (set_notifications []))
        by (intros; apply create_notification_rest);
      done.
Qed.

(** ** The notification inbox *)

Section inbox.
Variable user_id : Z.

Lemma fmap_mark_idemp (l : list Notification.t) :
  (λ n : Notification.t,
       if bool_decide (Notification.user_id n = user_id)
       then CRUDNotification.set_is_read true n else n) <$> ((λ n : Notification.t,
       if bool_decide (Notification.user_id n = user_id)
       then CRUDNotification.set_is_read true n else n) <$> l)
  = (λ n : Notification.t,
       if bool_decide (Notification.user_id n = user_id)
       then CRUDNotification.set_is_read true n else n) <$> l.
Proof.
  induction l as [|n l IH]; [done|]. rewrite !fmap_cons, IH. f_equal.
  destruct (decide (Notification.user_id n = user_id)) as [Hn|Hn].
  - rewrite (bool_decide_eq_true_2 _ Hn). simpl. by rewrite bool_decide_eq_true_2.
  - rewrite (bool_decide_eq_false_2 _ Hn). by rewrite bool_decide_eq_false_2.
Qed.

Lemma filter_owner_mark (l : list Notification.t) :
  filter (λ n, Notification.user_id n = user_id)
    ((λ n : Notification.t,
       if bool_decide (Notification.user_id n = user_id)
       then CRUDNotification.set_is_read true n else n) <$> l)
  = CRUDNotification.set_is_read true
      <$> filter (λ n, Notification.user_id n = user_id) l.
Proof.
  induction l as [|n l IH]; [done|].
  rewrite fmap_cons, !filter_cons, IH.
  destruct (decide (Notification.user_id n = user_id)) as [Hn|Hn].
  - rewrite (bool_decide_eq_true_2 _ Hn). simpl. by rewrite decide_True.
  - rewrite (bool_decide_eq_false_2 _ Hn). by rewrite decide_False.
Qed.

Lemma filter_other_mark (other : Z) (l : list Notification.t) :
  other ≠ user_id →
  filter (λ n, Notification.user_id n = other)
    ((λ n : Notification.t,
       if bool_decide (Notification.user_id n = user_id)
       then CRUDNotification.set_is_read true n else n) <$> l)
  = filter (λ n, Notification.user_id n = other) l.
Proof.
  intros Hother. induction l as [|n l IH]; [done|].
  rewrite fmap_cons, !filter_cons, IH.
  destruct (decide (Notification.user_id n = user_id)) as [Hn|Hn].
  - rewrite (bool_decide_eq_true_2 _ Hn). simpl.
    rewrite !decide_False by congruence. done.
  - by rewrite (bool_decide_eq_false_2 _ Hn).
Qed.

Lemma filter_unread_read (l : list Notification.t) :
  filter (λ n, Notification.is_read n = false) (CRUDNotification.set_is_read true <$> l)
  = [].
Proof. induction l as [|n l IH]; [done|]. rewrite fmap_cons, filter_cons. done. Qed.

End inbox.

(** X14: after "read all" the caller's unread listing is empty, the full
    listing still shows the same notifications, every other user's listings
    are what they were, and a second "read all" changes nothing. *)
Theorem mark_all_notifications_read_clears_inbox (current_user : User.t) (db : Db) :
  let db' := (routes.mark_all_notifications_read current_user db).1 in
  routes.get_notifications current_user db' true = []
  ∧ Notification.id <$> routes.get_notifications current_user db' false
    = Notification.id <$> routes.get_notifications current_user db false
  ∧ (∀ (other : User.t) (unread_only : bool),
       User.id other ≠ User.id current_user →
       routes.get_notifications other db' unread_only
       = routes.get_notifications other db unread_only)
  ∧ (routes.mark_all_notifications_read current_user db').1 = db'.
Proof.
  unfold routes.mark_all_notifications_read, routes.get_notifications,
    CRUDNotification.mark_all_as_read, CRUDNotification.get_by_user.
  cbn [fst snd notifications set_notifications].
  split; [|split; [|split]].
  - by rewrite filter_owner_mark, filter_unread_read.
  - by rewrite filter_owner_mark, !fmap_reverse, <- list_fmap_compose.
  - intros other unread_only Hother. by rewrite filter_other_mark.
  - by rewrite fmap_mark_idemp.
Qed.

Section read_one.
Variables notification_id user_id : Z.

Lemma filter_owner_update_first (l : list Notification.t) :
  Notification.id
    <$> filter (λ n, Notification.user_id n = user_id)
          (update_first (CRUDNotification.owned notification_id user_id)
             (CRUDNotification.set_is_read true) l)
  = Notification.id <$> filter (λ n, Notification.user_id n = user_id) l.
Proof.
  induction l as [|n l IH]; [done|]. simpl.
  destruct (CRUDNotification.owned notification_id user_id n) eqn:Hp.
  - apply owned_true in Hp as [_ Hu]. rewrite !filter_cons. simpl.
    by rewrite !decide_True.
  - rewrite !filter_cons. destruct (decide _); [|done]. by rewrite !fmap_cons, IH.
Qed.

Lemma filter_other_update_first (other : Z) (l : list Notification.t) :
  other ≠ user_id →
  filter (λ n, Notification.user_id n = other)
    (update_first (CRUDNotification.owned notification_id user_id)
       (CRUDNotification.set_is_read true) l)
  = filter (λ n, Notification.user_id n = other) l.
Proof.
  intros Hother. induction l as [|n l IH]; [done|]. simpl.
  destruct (CRUDNotification.owned notification_id user_id n) eqn:Hp.
  - apply owned_true in Hp as [_ Hu]. rewrite !filter_cons. simpl.
    rewrite !decide_False by congruence. done.
  - rewrite !filter_cons. by rewrite IH.
Qed.

Lemma filter_id_other (l : list Notification.t) :
  notification_id ∉ Notification.id <$> l →
  filter (λ n, Notification.id n ≠ notification_id) l = l.
Proof.
  induction l as [|n l IH]; [done|]. rewrite fmap_cons, not_elem_of_cons.
  intros [Hn Hl]. rewrite filter_cons, decide_True by done. by rewrite IH.
Qed.

Lemma filter_unread_update_first (l : list Notification.t) :
  NoDup (Notification.id <$> l) →
  is_Some (find (CRUDNotification.owned notification_id user_id) l) →
  filter (λ n, Notification.is_read n = false)
    (filter (λ n, Notification.user_id n = user_id)
       (update_first (CRUDNotification.owned notification_id user_id)
          (CRUDNotification.set_is_read true) l))
  = filter (λ n, Notification.id n ≠ notification_id)
      (filter (λ n, Notification.is_read n = false)
         (filter (λ n, Notification.user_id n = user_id) l)).
Proof.
  induction l as [|n l IH]; simpl; [by intros _ [? ?]|].
  rewrite NoDup_cons. intros [Hn Hl] Hfound.
  destruct (CRUDNotification.owned notification_id user_id n) eqn:Hp.
  - apply owned_true in Hp as [Hid Hu]. rewrite !filter_cons. simpl.
    rewrite !decide_True by done.
    rewrite (filter_cons _ (CRUDNotification.set_is_read true n)).
    rewrite decide_False by done.
    rewrite (filter_cons (λ n, Notification.is_read n = false) n).
    assert (Hrest : filter (λ n, Notification.id n ≠ notification_id)
                      (filter (λ n, Notification.is_read n = false)
                         (filter (λ n, Notification.user_id n = user_id) l))
                    = filter (λ n, Notification.is_read n = false)
                        (filter (λ n, Notification.user_id n = user_id) l)).
    { apply filter_id_other. rewrite <- Hid. intros Hin. apply Hn.
      apply list_elem_of_fmap in Hin as (m & -> & Hm).
      apply list_elem_of_filter in Hm as [_ Hm].
      apply list_elem_of_filter in Hm as [_ Hm].
      apply list_elem_of_fmap. by exists m. }
    destruct (decide (Notification.is_read n = false)).
    + rewrite filter_cons, decide_False by (intros Hne; by apply Hne). done.
    + done.
  - rewrite !(filter_cons (λ n, Notification.user_id n = user_id)).
    destruct (decide (Notification.user_id n = user_id)) as [Hu|Hu];
      [|by apply IH].
    rewrite !(filter_cons (λ n, Notification.is_read n = false)).
    destruct (decide (Notification.is_read n = false)); [|by apply IH].
    rewrite filter_cons, decide_True.
    + by rewrite IH.
    + intros Hid. apply not_true_iff_false in Hp. apply Hp, owned_true. done.
Qed.

End read_one.

(** X15: where notification ids are distinct, marking one of the caller's
    notifications as read removes exactly that one from the caller's unread
    listing; the full listing still shows the same notifications, and other
    users' listings are what they were. *)
Theorem mark_notification_read_leaves_unread_listing (current_user : User.t)
    (db db' : Db) (notification_id : Z) (message : string) :
  NoDup (Notification.id <$> notifications db) →
  routes.mark_notification_read current_user db notification_id = (db', Ok message) →
  routes.get_notifications current_user db' true
  = filter (λ n, Notification.id n ≠ notification_id)
      (routes.get_notifications current_user db true)
  ∧ Notification.id <$> routes.get_notifications current_user db' false
    = Notification.id <$> routes.get_notifications current_user db false
  ∧ (∀ (other : User.t) (unread_only : bool),
       User.id other ≠ User.id current_user →
       routes.get_notifications other db' unread_only
       = routes.get_notifications other db unread_only).
Proof.
  intros Hnodup. unfold routes.mark_notification_read, CRUDNotification.mark_as_read.
  destruct (find _ (notifications db)) as [n|] eqn:Hfind; [|done].
  intros [= <- _].
  unfold routes.get_notifications, CRUDNotification.get_by_user.
  cbn [notifications set_notifications].
  split; [|split].
  - rewrite filter_reverse. f_equal. apply filter_unread_update_first; [done|].
    rewrite Hfind. by eexists.
  - by rewrite !fmap_reverse, filter_owner_update_first.
  - intros other unread_only Hother. by rewrite filter_other_update_first.
Qed.

Lemma mark_notification_read_leaves_unread_listing_witness :
  routes.get_notifications student_S
    (routes.mark_notification_read student_S notified_db 1).1 true
  = filter (λ n, Notification.id n ≠ 1) (routes.get_notifications student_S notified_db true)
  ∧ Notification.id
      <$> routes.get_notifications student_S
            (routes.mark_notification_read student_S notified_db 1).1 false
    = Notification.id <$> routes.get_notifications student_S notified_db false
  ∧ (∀ (other : User.t) (unread_only : bool),
       User.id other ≠ User.id student_S →
       routes.get_notifications other
         (routes.mark_notification_read student_S notified_db 1).1 unread_only
       = routes.get_notifications other notified_db unread_only).
Proof.
  apply (mark_notification_read_leaves_unread_listing student_S notified_db _ 1
           "Notification marked as read").
  - vm_compute. apply NoDup_singleton.
  - reflexivity.
Defined.

(** ** File validation *)

(** X16: on a complaint the caller may access, [upload_file] answers 400,
    leaving the session as it was, exactly for the files that
    [validate_file_upload] rejects against the same list of extensions: the
    route's own checks and the helper of [security.py], which the route does
    not call, agree, the empty file name included. *)
Theorem upload_file_agrees_with_validate_file_upload (current_user : User.t) (db : Db)
    (complaint_id : Z) (file : UploadFile.t) (saved : option string)
    (complaint : Complaint.t) :
  get_complaint db complaint_id = Some complaint →
  can_access_complaint current_user complaint = true →
  validate_file_upload (UploadFile.filename file) (UploadFile.size file)
    allowed_extensions = false
  ↔ ∃ detail,
      routes.upload_file current_user db complaint_id file saved
      = (db, HTTPException HTTP_400_BAD_REQUEST detail).
Proof.
  intros Hget Haccess.
  unfold routes.upload_file, CRUDComplaint.get, validate_file_upload.
  rewrite Hget, Haccess. cbn [negb]. cbv zeta.
  change (10 * 1024 * 1024) with max_size.
  destruct (bool_decide (UploadFile.filename file = "")) eqn:Hempty.
  - apply bool_decide_eq_true in Hempty. rewrite Hempty.
    split; [|done]. intros _. by eexists.
  - destruct (bool_decide (lower _ ∉ allowed_extensions)).
    + split; [|done]. intros _. by eexists.
    + destruct (bool_decide (max_size < UploadFile.size file)).
      * split; [|done]. intros _. by eexists.
      * split; [done|]. intros [detail Hroute]. destruct saved; [|done].
        rewrite attachment_create_raises in Hroute. done.
Qed.

Lemma upload_file_agrees_with_validate_file_upload_witness :
  validate_file_upload "heater.exe" 2048 allowed_extensions = false
  ↔ ∃ detail,
      routes.upload_file student_S demo_db 1 (UploadFile.mk "heater.exe" 2048)
        (Some "uploads/1/heater.exe")
      = (demo_db, HTTPException HTTP_400_BAD_REQUEST detail).
Proof.
  apply (upload_file_agrees_with_validate_file_upload student_S demo_db 1
           (UploadFile.mk "heater.exe" 2048) (Some "uploads/1/heater.exe") complaint_X).
  - reflexivity.
  - reflexivity.
Defined.

Lemma append_cons (a : ascii) (s t : string) : String a s +:+ t = String a (s +:+ t).
Proof. reflexivity. Qed.

Lemma append_nil_r (s : string) : s +:+ "" = s.
Proof. induction s as [|a s IH]; [done|]. by rewrite append_cons, IH. Qed.

Lemma append_snoc (s t : string) (c : ascii) :
  (s +:+ String c "") +:+ t = s +:+ String c t.
Proof. induction s as [|a s IH]; [done|]. by rewrite !append_cons, IH. Qed.

Lemma last_segment_no_dot (acc ext : string) :
  "."%char ∉ list_ascii_of_string ext → last_segment acc ext = acc +:+ ext.
Proof.
  revert acc. induction ext as [|c ext IH]; intros acc Hext; simpl.
  - by rewrite append_nil_r.
  - simpl in Hext. apply not_elem_of_cons in Hext as [Hc Hext].
    rewrite bool_decide_eq_false_2 by congruence.
    by rewrite IH, append_snoc.
Qed.

Lemma last_segment_app (acc stem ext : string) :
  "."%char ∉ list_ascii_of_string ext →
  last_segment acc (stem +:+ "." +:+ ext) = ext.
Proof.
  intros Hext. revert acc. induction stem as [|c stem IH]; intros acc.
  - change ("" +:+ "." +:+ ext) with (String "."%char ext).
    cbn [last_segment]. rewrite bool_decide_eq_true_2 by done.
    by rewrite last_segment_no_dot.
  - rewrite append_cons. cbn [last_segment]. case_bool_decide; apply IH.
Qed.

(** X17: of a file name "stem.ext" only the part after the last dot counts,
    whatever the stem holds: with an extension of ASCII characters, the
    helper accepts the file exactly when the lower-cased extension is in the
    list and the size is at most 10 MiB. *)
Theorem validate_file_upload_last_extension (stem ext : string) (file_size : Z)
    (extensions : list string) :
  "."%char ∉ list_ascii_of_string ext →
  Forall (λ c, (nat_of_ascii c < 128)%nat) (list_ascii_of_string ext) →
  validate_file_upload (stem +:+ "." +:+ ext) file_size extensions
  = bool_decide (lower ext ∈ extensions) && bool_decide (file_size ≤ 10485760).
Proof.
  intros Hext _. unfold validate_file_upload.
  rewrite last_segment_app by done.
  rewrite bool_decide_eq_false_2.
  2: { destruct stem; simpl; discriminate. }
  cbv zeta. change (10 * 1024 * 1024) with 10485760.
  destruct (decide (lower ext ∈ extensions)) as [Hin|Hin].
  - rewrite (bool_decide_eq_false_2 (_ ∉ _)) by tauto.
    rewrite (bool_decide_eq_true_2 _ Hin). simpl.
    case_bool_decide; case_bool_decide; done || lia.
  - rewrite (bool_decide_eq_true_2 (_ ∉ _)) by tauto.
    by rewrite (bool_decide_eq_false_2 _ Hin).
Qed.

Lemma validate_file_upload_last_extension_witness :
  validate_file_upload ("report.exe" +:+ "." +:+ "PDF") 4096 allowed_extensions
  = bool_decide (lower "PDF" ∈ allowed_extensions) && bool_decide (4096 ≤ 10485760).
Proof.
  apply (validate_file_upload_last_extension "report.exe" "PDF" 4096 allowed_extensions).
  - apply (bool_decide_eq_true_1 ("."%char ∉ list_ascii_of_string "PDF")). reflexivity.
  - apply (bool_decide_eq_true_1
             (Forall (λ c, (nat_of_ascii c < 128)%nat) (list_ascii_of_string "PDF"))).
    reflexivity.
Defined.

(** ** Input sanitization *)

Section strip.
Variable isspace : N → bool.

Lemma lstrip_suffix (text : list N) : lstrip isspace text `suffix_of` text.
Proof.
  induction text as [|c text IH]; simpl; [done|].
  destruct (isspace c); [by apply suffix_cons_r|done].
Qed.

Lemma lstrip_head (text : list N) (c : N) :
  head (lstrip isspace text) = Some c → isspace c = false.
Proof.
  induction text as [|c' text IH]; simpl; [done|].
  destruct (isspace c') eqn:Hc'; [done|]. simpl. by intros [= <-].
Qed.

Lemma lstrip_id (text : list N) :
  (∀ c, head text = Some c → isspace c = false) → lstrip isspace text = text.
Proof.
  destruct text as [|c text]; simpl; [done|]. intros Hhead.
  by rewrite (Hhead c eq_refl).
Qed.

Lemma rstrip_prefix (text : list N) : rstrip isspace text `prefix_of` text.
Proof.
  unfold rstrip. destruct (lstrip_suffix (reverse text)) as [k Hk].
  exists (reverse k). apply (inj reverse).
  by rewrite reverse_app, !reverse_involutive.
Qed.

Lemma strip_head (text : list N) (c : N) :
  head (strip isspace text) = Some c → isspace c = false.
Proof.
  unfold strip. destruct (rstrip_prefix (lstrip isspace text)) as [k Hk].
  intros Hhead. apply (lstrip_head text). rewrite Hk.
  destruct (rstrip isspace (lstrip isspace text)); [done|exact Hhead].
Qed.

Lemma strip_last (text : list N) (c : N) :
  last (strip isspace text) = Some c → isspace c = false.
Proof.
  unfold strip, rstrip. rewrite last_reverse. apply lstrip_head.
Qed.

Lemma strip_sublist (text : list N) : strip isspace text `sublist_of` text.
Proof.
  unfold strip.
  destruct (rstrip_prefix (lstrip isspace text)) as [k Hk].
  destruct (lstrip_suffix text) as [k' Hk'].
  rewrite Hk' at 2. rewrite Hk at 2.
  by apply sublist_inserts_l, sublist_inserts_r.
Qed.

Lemma strip_id (text : list N) :
  (∀ c, head text = Some c → isspace c = false) →
  (∀ c, last text = Some c → isspace c = false) →
  strip isspace text = text.
Proof.
  intros Hhead Hlast. unfold strip, rstrip. rewrite (lstrip_id text Hhead).
  rewrite lstrip_id; [apply reverse_involutive|].
  intros c. rewrite head_reverse. apply Hlast.
Qed.

End strip.

Lemma remove_dangerous_chars (text : list N) :
  foldl (λ text char, replace_char char text) text dangerous_chars
  = filter (λ c, c ∉ dangerous_chars) text.
Proof.
  unfold dangerous_chars, replace_char. cbn [foldl].
  induction text as [|c text IH]; [done|].
  rewrite !filter_cons.
  destruct (decide (c ≠ 60%N)) as [H1|H1].
  2: { rewrite decide_False; [exact IH|]. rewrite !elem_of_cons. tauto. }
  rewrite filter_cons.
  destruct (decide (c ≠ 62%N)) as [H2|H2].
  2: { rewrite decide_False; [exact IH|]. rewrite !elem_of_cons. tauto. }
  rewrite filter_cons.
  destruct (decide (c ≠ 34%N)) as [H3|H3].
  2: { rewrite decide_False; [exact IH|]. rewrite !elem_of_cons. tauto. }
  rewrite filter_cons.
  destruct (decide (c ≠ 39%N)) as [H4|H4].
  2: { rewrite decide_False; [exact IH|]. rewrite !elem_of_cons. tauto. }
  rewrite filter_cons.
  destruct (decide (c ≠ 38%N)) as [H5|H5].
  2: { rewrite decide_False; [exact IH|]. rewrite !elem_of_cons. tauto. }
  rewrite decide_True; [by rewrite IH|].
  rewrite !elem_of_cons, elem_of_nil. tauto.
Qed.

Lemma filter_all {A : Type} (P : A → Prop) `{∀ x, Decision (P x)} (l : list A) :
  Forall P l → filter P l = l.
Proof.
  induction 1 as [|x l Hx Hl IH]; [done|]. by rewrite filter_cons, decide_True, IH.
Qed.

(** X18: whatever the table of space characters, the sanitized text holds
    none of the five dangerous characters, neither starts nor ends with a
    space character, keeps the remaining characters in their order, and
    sanitizing it again changes nothing. *)
Theorem sanitize_input_clean (isspace : N → bool) (text : list N) :
  let out := sanitize_input isspace text in
  (∀ c, c ∈ dangerous_chars → c ∉ out)
  ∧ out `sublist_of` text
  ∧ (∀ c, head out = Some c → isspace c = false)
  ∧ (∀ c, last out = Some c → isspace c = false)
  ∧ sanitize_input isspace out = out.
Proof.
  intros out.
  assert (Hout : out = strip isspace (filter (λ c, c ∉ dangerous_chars) text)).
  { unfold out, sanitize_input. destruct text as [|c text]; [done|].
    by rewrite remove_dangerous_chars. }
  assert (Hsub : out `sublist_of` filter (λ c, c ∉ dangerous_chars) text).
  { rewrite Hout. apply strip_sublist. }
  assert (Hclean : Forall (λ c, c ∉ dangerous_chars) out).
  { apply Forall_forall. intros c Hc.
    eapply elem_of_sublist in Hc; [|exact Hsub].
    by apply list_elem_of_filter in Hc as [Hc _]. }
  assert (Hhead : ∀ c, head out = Some c → isspace c = false).
  { intros c. rewrite Hout. apply strip_head. }
  assert (Hlast : ∀ c, last out = Some c → isspace c = false).
  { intros c. rewrite Hout. apply strip_last. }
  split; [|split; [|split; [|split]]]; try done.
  - intros c Hc Hin. rewrite Forall_forall in Hclean. by apply (Hclean c).
  - etrans; [exact Hsub|]. apply sublist_filter.
  - unfold sanitize_input at 1. destruct out as [|c out'] eqn:Heq; [done|].
    rewrite remove_dangerous_chars, (filter_all _ _ Hclean).
    by apply strip_id.
Qed.

(** ** Messages: posting, then listing *)

Lemma create_message_tables (current_user : User.t) (db db' : Db) (complaint_id : Z)
    (message_data : MessageCreate.t) (message : Message.t) :
  routes.create_message current_user db complaint_id message_data = (db', Ok message) →
  complaints db' = complaints db
  ∧ messages db' = messages db ++ [message]
  ∧ message
    = Message.mk (next_id (Message.id <$> messages db))
        (MessageCreate.content message_data) (MessageCreate.complaint_id message_data)
        (User.id current_user) (MessageCreate.is_internal message_data).
Proof.
  unfold routes.create_message.
  destruct (CRUDComplaint.get db complaint_id) as [complaint|]; [|done].
  destruct (negb _); [done|].
  unfold CRUDMessage.create, CRUDActivity.log_activity. cbn [fst snd].
  intros [= <- <-].
  rewrite (foldl_preserves complaints), (foldl_preserves messages) by done.
  done.
Qed.

(** X19: a posted message is filed under the complaint named in the request
    body, an existing one, which the path need not name, with the caller as
    its sender.
    Afterwards every listing of that complaint that shows messages of its
    kind (any listing for a public message; for an internal one, the
    listings with internal messages asked for by admins and staff) shows the
    former messages followed by the new one, and every other listing is
    what it was. *)
Theorem create_message_then_get_messages (current_user : User.t) (db db' : Db)
    (complaint_id : Z) (message_data : MessageCreate.t) (message : Message.t) :
  is_Some (get_complaint db (MessageCreate.complaint_id message_data)) →
  routes.create_message current_user db complaint_id message_data = (db', Ok message) →
  Message.complaint_id message = MessageCreate.complaint_id message_data
  ∧ Message.sender_id message = User.id current_user
  ∧ ∀ (reader : User.t) (listed_id : Z) (include_internal : bool),
      let shown :=
        bool_decide (listed_id = MessageCreate.complaint_id message_data)
        && (negb (MessageCreate.is_internal message_data)
            || (include_internal
                && bool_decide (User.role reader ∈ [ADMIN; STAFF; SUPER_ADMIN]))) in
      routes.get_messages reader db' listed_id include_internal
      = match routes.get_messages reader db listed_id include_internal with
        | Ok listing => Ok (if shown then listing ++ [message] else listing)
        | HTTPException code detail => HTTPException code detail
        end.
Proof.
  intros _ Hcreate.
  destruct (create_message_tables _ _ _ _ _ _ Hcreate) as (Hcomplaints & Hmessages & ->).
  split; [done|]. split; [done|].
  intros reader listed_id include_internal shown. subst shown.
  unfold routes.get_messages, CRUDComplaint.get, get_complaint.
  rewrite Hcomplaints.
  destruct (find _ (complaints db)) as [complaint|]; [|done].
  destruct (negb (can_access_complaint reader complaint)); [done|].
  f_equal. unfold CRUDMessage.get_by_complaint. rewrite Hmessages.
  cbv zeta. rewrite !filter_app.
  rewrite (filter_cons (λ m, Message.complaint_id m = listed_id)). cbn [Message.complaint_id].
  destruct (decide (MessageCreate.complaint_id message_data = listed_id)) as [Heq|Hne].
  - rewrite (bool_decide_eq_true_2 (listed_id = _)) by done.
    rewrite !filter_nil, filter_cons, filter_nil. cbn [Message.is_internal andb].
    destruct (decide (User.role reader ∈ [ADMIN; STAFF; SUPER_ADMIN])) as [Hrole|Hrole];
      [rewrite (bool_decide_eq_false_2 (_ ∉ _)) by tauto;
       rewrite (bool_decide_eq_true_2 _ Hrole)
      |rewrite (bool_decide_eq_true_2 (_ ∉ _)) by tauto;
       rewrite (bool_decide_eq_false_2 _ Hrole)];
      destruct include_internal, (MessageCreate.is_internal message_data);
      cbn [andb negb orb];
      rewrite ?decide_True, ?decide_False by done; by rewrite ?app_nil_r.
  - rewrite (bool_decide_eq_false_2 (listed_id = _)) by congruence.
    rewrite !filter_nil, !app_nil_r. cbn [andb]. done.
Qed.

Lemma create_message_then_get_messages_witness :
  Message.complaint_id
    (Message.mk 1 "Seen from outside" 2 2 false)
  = MessageCreate.complaint_id (MessageCreate.mk "Seen from outside" false 2)
  ∧ Message.sender_id (Message.mk 1 "Seen from outside" 2 2 false) = User.id student_S
  ∧ ∀ (reader : User.t) (listed_id : Z) (include_internal : bool),
      let shown :=
        bool_decide (listed_id
                     = MessageCreate.complaint_id
                         (MessageCreate.mk "Seen from outside" false 2))
        && (negb (MessageCreate.is_internal
                    (MessageCreate.mk "Seen from outside" false 2))
            || (include_internal
                && bool_decide (User.role reader ∈ [ADMIN; STAFF; SUPER_ADMIN]))) in
      routes.get_messages reader
        (routes.create_message student_S two_complaints_db 1
           (MessageCreate.mk "Seen from outside" false 2)).1
        listed_id include_internal
      = match routes.get_messages reader two_complaints_db listed_id include_internal with
        | Ok listing =>
            Ok (if shown then listing ++ [Message.mk 1 "Seen from outside" 2 2 false]
                else listing)
        | HTTPException code detail => HTTPException code detail
        end.
Proof.
  apply (create_message_then_get_messages student_S two_complaints_db _ 1
           (MessageCreate.mk "Seen from outside" false 2)
           (Message.mk 1 "Seen from outside" 2 2 false)).
  - eexists. reflexivity.
  - reflexivity.
Defined.

(** ** Changing the status through the general update *)

(** X20: the general update, where it names no department or an existing
    one, applies whatever status the body asks for, from any status, and
    the stored row is the one answered; unlike the
    status route it stamps neither the resolution time nor the resolver,
    not even when the new status is [RESOLVED], and it notifies nobody. *)
Theorem update_complaint_status_without_stamp (current_user : User.t) (db db' : Db)
    (complaint_id : Z) (complaint_update : ComplaintUpdate.t)
    (complaint updated : Complaint.t) (status : ComplaintStatus) :
  get_complaint db complaint_id = Some complaint →
  (∀ d, ComplaintUpdate.department_id complaint_update = Some d → d ∈ departments db) →
  ComplaintUpdate.status complaint_update = Some status →
  routes.update_complaint current_user db complaint_id complaint_update
  = (db', Ok updated) →
  get_complaint db' complaint_id = Some updated
  ∧ Complaint.status updated = status
  ∧ Complaint.resolved_at updated = Complaint.resolved_at complaint
  ∧ Complaint.resolved_by_id updated = Complaint.resolved_by_id complaint
  ∧ notifications db' = notifications db.
Proof.
  intros Hget _ Hstatus Hroute.
  destruct (update_complaint_found current_user db complaint_id complaint_update
              complaint Hget)
    as [[_ Hr]|[(_ & _ & _ & Hr)
               |(_ & _ & [(Hdept & db'' & Hr & Hget')|[_ Hr]])]];
    rewrite Hr in Hroute; try discriminate.
  injection Hroute as <- <-.
  split; [exact Hget'|]. unfold CRUDComplaint.apply_update. cbn.
  rewrite Hstatus. split; [done|]. split; [done|]. split; [done|].
  clear Hget'. unfold routes.update_complaint, CRUDComplaint.get in Hr.
  rewrite Hget in Hr.
  destruct (negb _); [done|]. destruct (_ && _); [done|].
  unfold CRUDComplaint.update, CRUDActivity.log_activity in Hr.
  rewrite Hdept in Hr. cbn [fst snd] in Hr.
  injection Hr as <-.
  rewrite Hstatus. destruct (ComplaintUpdate.priority complaint_update);
    repeat case_bool_decide; done.
Qed.

Lemma update_complaint_status_without_stamp_witness :
  get_complaint (routes.update_complaint student_S demo_db 1
                   (ComplaintUpdate.mk None None None None (Some RESOLVED)
                      None None None)).1 1
  = Some (set_status RESOLVED complaint_X)
  ∧ Complaint.status (set_status RESOLVED complaint_X) = RESOLVED
  ∧ Complaint.resolved_at (set_status RESOLVED complaint_X)
    = Complaint.resolved_at complaint_X
  ∧ Complaint.resolved_by_id (set_status RESOLVED complaint_X)
    = Complaint.resolved_by_id complaint_X
  ∧ notifications (routes.update_complaint student_S demo_db 1
                     (ComplaintUpdate.mk None None None None (Some RESOLVED)
                        None None None)).1
    = notifications demo_db.
Proof.
  apply (update_complaint_status_without_stamp student_S demo_db _ 1
           (ComplaintUpdate.mk None None None None (Some RESOLVED) None None None)
           complaint_X (set_status RESOLVED complaint_X) RESOLVED).
  - reflexivity.
  - intros d Hd. discriminate Hd.
  - reflexivity.
  - reflexivity.
Defined.

(** ** Nothing is deleted *)

Lemma foldl_prefix {A B : Type} (g : Db → list B) (step : Db → A → Db) (l : list A)
    (db : Db) :
  (∀ db x, g db `prefix_of` g (step db x)) → g db `prefix_of` g (foldl step db l).
Proof.
  intros Hstep. revert db. induction l as [|x l IH]; intros db; simpl; [done|].
  etrans; [apply Hstep|apply IH].
Qed.

Lemma foldl_create_notification_ids {A : Type} (user : A → Z) (title message : string)
    (complaint_id : option Z) (l : list A) (db : Db) :
  (Notification.id <$> notifications db)
  `prefix_of`
  (Notification.id
     <$> notifications
           (foldl (λ db x,
                     (NotificationService.create_notification db (user x) title message
                        complaint_id "system").1) db l)).
Proof.
  apply (foldl_prefix (λ db, Notification.id <$> notifications db)).
  intros db0 x. simpl. rewrite fmap_app. by apply prefix_app_r.
Qed.

Ltac grows_tables :=
  unfold grows;
  cbn [fst snd activities messages attachments complaints users notifications
       set_activities set_messages set_attachments set_complaints set_users
       set_notifications];
  rewrite ?(foldl_preserves activities), ?(foldl_preserves messages),
    ?(foldl_preserves attachments), ?(foldl_preserves complaints),
    ?(foldl_preserves users) by done;
  cbn [fst snd activities messages attachments complaints users notifications
       set_activities set_messages set_attachments set_complaints set_users
       set_notifications];
  rewrite ?fmap_app, ?update_first_keys by done;
  repeat match goal with
         | |- _ ∧ _ => split
         | |- ?l `prefix_of` ?l => reflexivity
         | |- ?l `prefix_of` ?l ++ _ => by apply prefix_app_r
         | |- ?l `prefix_of` (?l ++ _) ++ _ =>
             rewrite <- app_assoc; by apply prefix_app_r
         | |- _ `prefix_of` Notification.id <$> notifications (foldl _ _ _) =>
             etrans; [|apply foldl_create_notification_ids]
         end.

Lemma grows_refl (db : Db) : grows db db.
Proof. by grows_tables. Qed.

Lemma handle_grows (now : Z) (db : Db) (request : Request) :
  request ≠ POST_system_reset_demo_data → grows db (handle now db request).
Proof.
  intros Hrequest.
  destruct request; simpl; unfold authenticated;
    try (destruct (get_current_active_user db token) as [current_user|];
         [|apply grows_refl]).
  - unfold routes.register.
    repeat (case_bool_decide; [apply grows_refl|]).
    destruct (_ && _); [apply grows_refl|].
    unfold CRUDUser.create. by grows_tables.
  - unfold routes.update_user.
    destruct (get_admin_user current_user); [|apply grows_refl].
    destruct (get_user db user_id); [|apply grows_refl].
    destruct (_ && _); [apply grows_refl|].
    unfold CRUDUser.update. by grows_tables.
  - unfold routes.create_complaint. case_bool_decide; [apply grows_refl|].
    unfold CRUDComplaint.create, CRUDActivity.log_activity.
    destruct (department_exists _ _); [|apply grows_refl]. by grows_tables.
  - unfold routes.update_complaint.
    destruct (CRUDComplaint.get db complaint_id); [|apply grows_refl].
    destruct (negb _); [apply grows_refl|]. destruct (_ && _); [apply grows_refl|].
    unfold CRUDComplaint.update, CRUDActivity.log_activity.
    destruct (department_exists _ _); [|apply grows_refl].
    destruct (ComplaintUpdate.status complaint_update),
      (ComplaintUpdate.priority complaint_update);
      repeat case_bool_decide; by grows_tables.
  - unfold routes.assign_complaint, CRUDComplaint.get.
    destruct (get_admin_user current_user); [|apply grows_refl].
    destruct (get_complaint db complaint_id) eqn:Hget; [|apply grows_refl].
    destruct (_ && _); [apply grows_refl|].
    rewrite (assign_users_Some _ _ _ _ Hget). cbv zeta.
    unfold CRUDActivity.log_activity. by grows_tables.
  - unfold routes.update_complaint_status.
    destruct (get_admin_user current_user); [|apply grows_refl].
    destruct (get_complaint db complaint_id) eqn:Hget.
    + rewrite (update_status_Some _ _ _ _ _ _ _ Hget). cbv zeta.
      unfold CRUDActivity.log_activity, NotificationService.create_notification,
        CRUDNotification.create.
      grows_tables.
      rewrite update_first_keys by (intros; apply apply_status_id). done.
    + rewrite (update_status_None _ _ _ _ _ _ Hget). apply grows_refl.
  - unfold routes.upload_file.
    destruct (CRUDComplaint.get db complaint_id); [|apply grows_refl].
    destruct (negb _); [apply grows_refl|].
    repeat (case_bool_decide; [apply grows_refl|]).
    destruct saved; [|apply grows_refl].
    rewrite attachment_create_raises. apply grows_refl.
  - unfold routes.create_message.
    destruct (CRUDComplaint.get db complaint_id); [|apply grows_refl].
    destruct (negb _); [apply grows_refl|].
    unfold CRUDMessage.create, CRUDActivity.log_activity. by grows_tables.
  - unfold routes.mark_notification_read, CRUDNotification.mark_as_read.
    destruct (find _ _); [|apply grows_refl]. by grows_tables.
  - unfold routes.mark_all_notifications_read, CRUDNotification.mark_all_as_read.
    grows_tables. rewrite <- list_fmap_compose.
    rewrite (list_fmap_ext (Notification.id ∘ _) Notification.id (notifications db));
      [done|].
    intros i n _. simpl. by case_bool_decide.
  - done.
Qed.

Lemma grows_trans (db1 db2 db3 : Db) : grows db1 db2 → grows db2 db3 → grows db1 db3.
Proof.
  unfold grows. intros (?&?&?&?&?&?) (?&?&?&?&?&?).
  repeat split; etrans; eassumption.
Qed.

(** X21: through any sequence of requests without a demo reset, the session
    keeps every activity, message and attachment it held, unchanged and in
    the same place, and every user, complaint and notification id: the
    handlers only add rows at the end or update rows in place. *)
Theorem run_never_deletes (db : Db) (requests : list (Z * Request)) :
  Forall (λ r, r.2 ≠ POST_system_reset_demo_data) requests →
  grows db (run db requests).
Proof.
  revert db. induction requests as [|[now request] requests IH]; intros db Hrequests.
  - apply grows_refl.
  - apply Forall_cons in Hrequests as [Hrequest Hrequests].
    eapply grows_trans; [apply (handle_grows now), Hrequest|].
    apply IH, Hrequests.
Qed.

Lemma run_never_deletes_witness :
  grows chat_db
    (run chat_db
       [(3000, POST_complaints_messages 2 1 (MessageCreate.mk "Thank you" false 1));
        (3100, POST_complaints_status 1 1 (ComplaintStatusUpdate.mk CLOSED None));
        (3200, POST_notifications_read_all 2)]).
Proof.
  apply run_never_deletes.
  repeat (apply Forall_cons; split; [discriminate|]). apply Forall_nil_2.
Defined.

(** ** The role gates *)

(** X22: the role gates of [security.py] are consistent with one another:
    the admin gate admits exactly the users that [require_roles] admits for
    admin, staff and super admin, the super admin gate exactly those it
    admits for super admin alone; a gate that refuses answers 403; and a
    user the super admin gate admits passes the admin gate, the university
    check for every university, and the access check of every complaint. *)
Theorem role_gates_consistent (current_user : User.t) :
  (get_admin_user current_user = Ok current_user
   ↔ require_roles [ADMIN; STAFF; SUPER_ADMIN] current_user = Ok current_user)
  ∧ (get_super_admin_user current_user = Ok current_user
     ↔ require_roles [SUPER_ADMIN] current_user = Ok current_user)
  ∧ (∀ allowed_roles,
       require_roles allowed_roles current_user = Ok current_user
       ∨ ∃ detail, require_roles allowed_roles current_user
                   = HTTPException HTTP_403_FORBIDDEN detail)
  ∧ (get_super_admin_user current_user = Ok current_user →
     get_admin_user current_user = Ok current_user
     ∧ (∀ university_id, same_university_required current_user university_id = Ok true)
     ∧ (∀ complaint, can_access_complaint current_user complaint = true)).
Proof.
  unfold get_admin_user, get_super_admin_user, require_roles, same_university_required,
    can_access_complaint.
  split; [|split; [|split]].
  - by case_bool_decide.
  - destruct (decide (User.role current_user = SUPER_ADMIN)) as [Hrole|Hrole].
    + rewrite (bool_decide_eq_false_2 (_ ≠ _)) by tauto.
      rewrite bool_decide_eq_false_2; [done|].
      rewrite Hrole, list_elem_of_singleton. tauto.
    + rewrite (bool_decide_eq_true_2 (_ ≠ _)) by done.
      rewrite bool_decide_eq_true_2; [done|].
      by rewrite list_elem_of_singleton.
  - intros allowed_roles. case_bool_decide; [right; by eexists|by left].
  - case_bool_decide as Hrole; [done|]. intros _.
    assert (Hsuper : User.role current_user = SUPER_ADMIN).
    { destruct (decide (User.role current_user = SUPER_ADMIN)); tauto. }
    rewrite Hsuper. split; [|split].
    + rewrite bool_decide_eq_false_2; [done|].
      rewrite !elem_of_cons. tauto.
    + intros university_id. by rewrite andb_false_r.
    + intros complaint. by rewrite bool_decide_eq_true_2.
Qed.

(** ** Seeding at start-up *)

(** X23: seeding is idempotent.  A session that knows a university is left
    as it is; otherwise exactly one university and two accounts of that
    university are added, a super admin and a student, and a second seeding
    changes nothing more. *)
Theorem create_default_data_idempotent (db : Db) :
  create_default_data (create_default_data db) = create_default_data db
  ∧ (universities db ≠ [] → create_default_data db = db)
  ∧ (universities db = [] →
     ∃ university_id admin student,
       universities (create_default_data db) = [university_id]
       ∧ users (create_default_data db) = users db ++ [admin; student]
       ∧ User.role admin = SUPER_ADMIN ∧ User.role student = STUDENT
       ∧ User.university_id admin = university_id
       ∧ User.university_id student = university_id
       ∧ User.id admin ≠ User.id student
       ∧ departments (create_default_data db) = departments db
       ∧ complaints (create_default_data db) = complaints db
       ∧ messages (create_default_data db) = messages db
       ∧ activities (create_default_data db) = activities db
       ∧ notifications (create_default_data db) = notifications db
       ∧ attachments (create_default_data db) = attachments db).
Proof.
  assert (Hlen : ∀ l : list Z, 0 < len l ↔ l ≠ []).
  { intros l. unfold len. destruct l; simpl; [|split; [done|lia]].
    split; [lia|done]. }
  split; [|split].
  - unfold create_default_data at 2 3.
    case_bool_decide as Hseeded.
    + unfold create_default_data. by rewrite bool_decide_eq_true_2.
    + unfold CRUDUser.create. cbn [fst snd].
      unfold create_default_data. rewrite bool_decide_eq_true_2; [done|].
      apply Hlen. cbn. by destruct (universities db).
  - intros Hseeded. unfold create_default_data.
    rewrite bool_decide_eq_true_2; [done|]. by apply Hlen.
  - intros Hempty. unfold create_default_data.
    rewrite bool_decide_eq_false_2 by (rewrite Hlen, Hempty; tauto).
    unfold CRUDUser.create. cbn [fst snd]. rewrite Hempty.
    eexists _, _, _. cbn. rewrite <- app_assoc.
    split; [reflexivity|]. split; [reflexivity|].
    split; [reflexivity|]. split; [reflexivity|].
    split; [reflexivity|]. split; [reflexivity|]. split.
    + rewrite fmap_app. cbn.
      pose proof (next_id_fresh ((User.id <$> users db)
                                 ++ [next_id (User.id <$> users db)])
                    (next_id (User.id <$> users db))) as Hfresh.
      intros Heq. rewrite <- Heq in Hfresh.
      assert (next_id (User.id <$> users db) < next_id (User.id <$> users db));
        [|lia].
      apply Hfresh. rewrite elem_of_app, list_elem_of_singleton. by right.
    + done.
Qed.
